(** * prodoh: a DNS to DNS-over-HTTPS proxy (prodoh.go)

    Shallow embedding of [typeToString], [httpGet], [DoHQuery],
    [parseQuery] and [handleDnsRequest], and the properties of the
    specification that concern them.

    Effects are explicit: every function that talks to the outside world
    is a state transformer over the trace of events that happened so far
    (HTTP exchanges, log lines, DNS messages written back to the client).
    The network, the JSON decoder and the master-file parser of the DNS
    library are parameters of the development. *)

From Stdlib Require Import ZArith List String Ascii Bool Lia.
From Stdlib Require Import DecimalString.
From Stdlib Require DecimalPos DecimalZ.
Import ListNotations.
Local Open Scope string_scope.
Local Open Scope list_scope.
Local Open Scope Z_scope.

(** ** Go values *)

(** A Go [(value, error)] pair as the functions of prodoh.go return it: the
    value is nil whenever the error is not, and an error is known by its
    message. *)
Inductive result (A : Type) : Type :=
| Ok (a : A)
| Err (e : string).
Arguments Ok {A} a.
Arguments Err {A} e.

Definition is_ok {A} (r : result A) : bool :=
  match r with Ok _ => true | Err _ => false end.

Definition is_err {A} (r : result A) : bool := negb (is_ok r).

(** [%d] of the fmt package. *)
Definition fmt_d (z : Z) : string := NilZero.string_of_int (Z.to_int z).

(** Two's complement wrap-around of int64 arithmetic. *)
Definition wrap64 (z : Z) : Z := (z + 2 ^ 63) mod 2 ^ 64 - 2 ^ 63.

Definition mul64 (a b : Z) : Z := wrap64 (a * b).

(** [strings.TrimSpace] on ASCII text: leading and trailing white space
    (tab, line feed, vertical tab, form feed, carriage return, space) is
    removed. *)
Definition isSpace (c : ascii) : bool :=
  let n := nat_of_ascii c in
  ((9 <=? n) && (n <=? 13))%nat || (n =? 32)%nat.

Fixpoint trimLeft (s : string) : string :=
  match s with
  | String c s' => if isSpace c then trimLeft s' else s
  | EmptyString => EmptyString
  end.

Fixpoint trimRight (s : string) : string :=
  match s with
  | String c s' =>
      match trimRight s' with
      | EmptyString => if isSpace c then EmptyString else String c EmptyString
      | t => String c t
      end
  | EmptyString => EmptyString
  end.

Definition TrimSpace (s : string) : string := trimRight (trimLeft s).

(** ** The constants of the DNS library that prodoh.go names *)

(** Modelled from the spec: the package github.com/miekg/dns that prodoh.go
    imports is not among the sources. The record types of the supported set
    {A, AAAA, CNAME, MX, TXT, SPF, NS, SOA, PTR, ANY} carry the numbers IANA
    and the library give them, QUERY is opcode 0, and the rcodes are
    NOERROR (0) and SERVFAIL (2). *)
Module dns.
Definition TypeA : Z := 1.
Definition TypeNS : Z := 2.
Definition TypeCNAME : Z := 5.
Definition TypeSOA : Z := 6.
Definition TypePTR : Z := 12.
Definition TypeMX : Z := 15.
Definition TypeTXT : Z := 16.
Definition TypeAAAA : Z := 28.
Definition TypeSPF : Z := 99.
Definition TypeANY : Z := 255.

Definition OpcodeQuery : Z := 0.

Definition RcodeSuccess : Z := 0.
Definition RcodeServerFailure : Z := 2.
End dns.

(** ** The type mapper *)

Definition typeToString (dnsType : Z) : result string :=
  if dnsType =? dns.TypeA then Ok "A"
  else if dnsType =? dns.TypeAAAA then Ok "AAAA"
  else if dnsType =? dns.TypeCNAME then Ok "CNAME"
  else if dnsType =? dns.TypeMX then Ok "MX"
  else if dnsType =? dns.TypeTXT then Ok "TXT"
  else if dnsType =? dns.TypeSPF then Ok "SPF"
  else if dnsType =? dns.TypeNS then Ok "NS"
  else if dnsType =? dns.TypeSOA then Ok "SOA"
  else if dnsType =? dns.TypePTR then Ok "PTR"
  else if dnsType =? dns.TypeANY then Ok "ANY"
  else Err ("Unsupported type " ++ fmt_d dnsType).

(** The type codes named by the cases of [typeToString], in the order the
    specification lists them. *)
Definition supported : list Z :=
  [dns.TypeA; dns.TypeAAAA; dns.TypeCNAME; dns.TypeMX; dns.TypeTXT;
   dns.TypeSPF; dns.TypeNS; dns.TypeSOA; dns.TypePTR; dns.TypeANY].

(** ** The JSON envelope of a DoH answer *)

Record Question := mkQuestion {
  q_Name : string;
  q_Type : Z
}.

Record Answer := mkAnswer {
  a_Name : string;
  a_Type : Z;
  a_TTL : Z;
  a_Data : string
}.

Record Response := mkResponse {
  Status : Z;
  TC : bool;
  RD : bool;
  RA : bool;
  AD : bool;
  CD : bool;
  r_Question : list Question;
  r_Answer : list Answer
}.

(** ** The request context

    [context.Background()] has no deadline; [context.WithTimeout] carries
    a duration in nanoseconds. *)
Inductive Context : Type :=
| Background
| WithTimeout (d : Z).

Definition Second : Z := 1000000000.

(** The deadline of the HTTP request, as [DoHQuery] sets it up from the
    [-timeout] flag (a [time.Duration], an int64). *)
Definition requestContext (timeout : Z) : Context :=
  if 0 <? timeout then WithTimeout (mul64 timeout Second) else Background.

(** [QueryParams] is a Go map; [url.Values.Encode] writes the keys in
    sorted order, which is the order of this association list for the keys
    "name" and "type". *)
Definition QueryParams := list (string * string).

(** The HTTP request [httpGet] builds. *)
Record Request := mkRequest {
  req_ctx : Context;
  req_method : string;
  req_url : string;
  req_header : list (string * string);
  req_query : QueryParams
}.

(** ** DNS messages *)

Module msg.
Record DnsQuestion := mkDnsQuestion {
  Name : string;
  Qtype : Z;
  Qclass : Z
}.

Section Msg.
Variable RR : Type.

(** Modelled from the spec: the type [dns.Msg] of the library is not among
    the sources. These are the fields prodoh.go and the library functions
    it calls read or write; the other header bits and sections keep their
    zero value in every message the proxy builds. *)
Record Msg := mkMsg {
  Id : Z;
  Response : bool;
  Opcode : Z;
  RecursionDesired : bool;
  CheckingDisabled : bool;
  Rcode : Z;
  Compress : bool;
  Question : list DnsQuestion;
  Answer : list RR
}.

(** [new(dns.Msg)] *)
Definition new : Msg := mkMsg 0 false 0 false false 0 false [] [].

Definition set_Rcode (m : Msg) (rcode : Z) : Msg :=
  mkMsg (Id m) (Response m) (Opcode m) (RecursionDesired m)
        (CheckingDisabled m) rcode (Compress m) (Question m) (Answer m).

Definition set_Compress (m : Msg) (c : bool) : Msg :=
  mkMsg (Id m) (Response m) (Opcode m) (RecursionDesired m)
        (CheckingDisabled m) (Rcode m) c (Question m) (Answer m).

Definition set_Answer (m : Msg) (rrs : list RR) : Msg :=
  mkMsg (Id m) (Response m) (Opcode m) (RecursionDesired m)
        (CheckingDisabled m) (Rcode m) (Compress m) (Question m) rrs.

(** Modelled from the spec: [Msg.SetReply] of the library is not among the
    sources. The response copies the transaction ID and the standard reply
    flags of the request: it takes the id and the opcode, is marked as a
    response with rcode success, copies the RD and CD bits of a query and,
    as the library does, keeps the first question of the request. *)
Definition SetReply (m request : Msg) : Msg :=
  let isq := Opcode request =? dns.OpcodeQuery in
  mkMsg (Id request) true (Opcode request)
        (if isq then RecursionDesired request else RecursionDesired m)
        (if isq then CheckingDisabled request else CheckingDisabled m)
        dns.RcodeSuccess (Compress m)
        (match Question request with
         | q :: _ => [q]
         | [] => Question m
         end)
        (Answer m).

(** Modelled from the spec: [Msg.SetRcode] of the library, not among the
    sources: [SetReply], then the rcode. *)
Definition SetRcode (m request : Msg) (rcode : Z) : Msg :=
  set_Rcode (SetReply m request) rcode.
End Msg.

Arguments mkMsg {RR} Id Response Opcode RecursionDesired CheckingDisabled
  Rcode Compress Question Answer.
Arguments Id {RR} m.
Arguments Response {RR} m.
Arguments Opcode {RR} m.
Arguments RecursionDesired {RR} m.
Arguments CheckingDisabled {RR} m.
Arguments Rcode {RR} m.
Arguments Compress {RR} m.
Arguments Question {RR} m.
Arguments Answer {RR} m.
Arguments new {RR}.
Arguments set_Rcode {RR} m rcode.
Arguments set_Compress {RR} m c.
Arguments set_Answer {RR} m rrs.
Arguments SetReply {RR} m request.
Arguments SetRcode {RR} m request rcode.
End msg.

(** ** Events and the state of the outside world

    The state threaded through the proxy is the trace of what happened so
    far, oldest event first. [EvDoH] is the record of a finished call of
    [DoHQuery] with what it returned; the other events are the effects of
    the source: the HTTP exchange, [log.Printf] and
    [ResponseWriter.WriteMsg]. *)
Inductive Event (RR : Type) : Type :=
| EvHTTP (rq : Request) (r : result string)
| EvDoH (upstream name : string) (dnsType : Z) (r : result (list RR))
| EvLog (line : string)
| EvWrite (m : msg.Msg RR).
Arguments EvHTTP {RR} rq r.
Arguments EvDoH {RR} upstream name dnsType r.
Arguments EvLog {RR} line.
Arguments EvWrite {RR} m.

Definition Trace (RR : Type) := list (Event RR).

(** Computations with effects: a state monad over the trace. *)
Definition IO (RR A : Type) : Type := Trace RR -> A * Trace RR.

Definition ret {RR A} (a : A) : IO RR A := fun tr => (a, tr).

Definition bind {RR A B} (c : IO RR A) (k : A -> IO RR B) : IO RR B :=
  fun tr => let (a, tr1) := c tr in k a tr1.

Definition emit {RR} (e : Event RR) : IO RR unit := fun tr => (tt, tr ++ [e]).

Notation "x <- c ;; k" := (bind c (fun x => k))
  (at level 61, c at next level, right associativity).
Notation "c ;;; k" := (bind c (fun _ => k))
  (at level 61, right associativity).

(** What a trace holds: the calls of [DoHQuery] with their results, the HTTP
    requests sent, and the DNS messages written to the client. *)
Definition Call (RR : Type) : Type := (string * string * Z) * result (list RR).

Fixpoint doh_calls {RR} (tr : Trace RR) : list (Call RR) :=
  match tr with
  | EvDoH u n t r :: tr' => ((u, n, t), r) :: doh_calls tr'
  | _ :: tr' => doh_calls tr'
  | [] => []
  end.

Fixpoint http_requests {RR} (tr : Trace RR) : list Request :=
  match tr with
  | EvHTTP rq _ :: tr' => rq :: http_requests tr'
  | _ :: tr' => http_requests tr'
  | [] => []
  end.

Fixpoint written {RR} (tr : Trace RR) : list (msg.Msg RR) :=
  match tr with
  | EvWrite m :: tr' => m :: written tr'
  | _ :: tr' => written tr'
  | [] => []
  end.

Fixpoint logged {RR} (tr : Trace RR) : list string :=
  match tr with
  | EvLog s :: tr' => s :: logged tr'
  | _ :: tr' => logged tr'
  | [] => []
  end.

Definition failed {RR} (c : Call RR) : Prop := is_err (snd c) = true.

(** ** The proxy *)

Section Proxy.
(** The resource records of the DNS library (the values of the interface
    [dns.RR], nil among them) and its master-file parser [dns.NewRR]. *)
Variable RR : Type.
Variable NewRR : string -> result RR.

(** [json.NewDecoder(...).Decode] into a [Response]. *)
Variable json_Decode : string -> result Response.

(** The error of [http.NewRequestWithContext] for an upstream, if it has
    one: the method is GET and the context is not nil, so that the request
    fails to be built only when the URL does not parse. *)
Variable url_error : string -> option string.

(** The network: what [client.Do] and reading the body give for a request,
    which may depend on all that happened before. *)
Variable http_Do : Trace RR -> Request -> result string.

(** The flags. *)
Variable timeout : Z.
Variable upstreams : list string.

Local Abbreviation Msg := (msg.Msg RR).
Local Abbreviation M := (IO RR).

Definition httpGet (ctx : Context) (upstream : string) (params : QueryParams)
  : M (result string) :=
  match url_error upstream with
  | Some err => ret (Err err)
  | None =>
      fun tr =>
        let rq := mkRequest ctx "GET" upstream
                    [("Accept", "application/dns-json")] params in
        let r := http_Do tr rq in
        (r, tr ++ [EvHTTP rq r])
  end.

(** The master-file text of an answer, [fmt.Sprintf("%s %d IN %s %s", ...)]. *)
Definition rrText (answer : Answer) (t : string) : string :=
  a_Name answer ++ " " ++ fmt_d (a_TTL answer) ++ " IN " ++ t ++ " "
    ++ a_Data answer.

(** The loop over [rr.Answer] of [DoHQuery]. *)
Fixpoint answersLoop (rrs : list RR) (answers : list Answer)
  : result (list RR) :=
  match answers with
  | [] => Ok rrs
  | answer :: rest =>
      match typeToString (a_Type answer) with
      | Err e => Err e
      | Ok t =>
          match NewRR (rrText answer t) with
          | Err e => Err e
          | Ok rr => answersLoop (rrs ++ [rr]) rest
          end
      end
  end.

(** What [DoHQuery] does with the decoded envelope. *)
Definition fromEnvelope (rr : Response) : result (list RR) :=
  if negb (Status rr =? 0)
  then Err ("DOH failed response code " ++ fmt_d (Status rr))
  else answersLoop [] (r_Answer rr).

Definition DoHQuery_body (upstream name : string) (dnsType : Z)
  : M (result (list RR)) :=
  match typeToString dnsType with
  | Err e => ret (Err e)
  | Ok t =>
      let ctx := requestContext timeout in
      let params := [("name", name); ("type", TrimSpace t)] in
      body <- httpGet ctx upstream params ;;
      match body with
      | Err e => ret (Err e)
      | Ok body =>
          match json_Decode body with
          | Err e => ret (Err e)
          | Ok rr => ret (fromEnvelope rr)
          end
      end
  end.

Definition DoHQuery (upstream name : string) (dnsType : Z)
  : M (result (list RR)) :=
  r <- DoHQuery_body upstream name dnsType ;;
  emit (EvDoH upstream name dnsType r) ;;;
  ret r.

(** [w.WriteMsg(m)]; the source ignores its error. *)
Definition WriteMsg (m : Msg) : M unit := emit (EvWrite m).

(** Modelled from the spec: [dns.HandleFailed] of the library, not among
    the sources, sends the DNS failure response: the reply [SetRcode] makes
    from the request with SERVFAIL, written to the client. *)
Definition failedReply (req : Msg) : Msg :=
  msg.SetRcode msg.new req dns.RcodeServerFailure.

Definition HandleFailed (req : Msg) : M unit := WriteMsg (failedReply req).

(** [for _, rr := range rsp { m.Answer = append(m.Answer, rr) }] *)
Definition appendAnswers (m : Msg) (rsp : list RR) : Msg :=
  fold_left (fun m rr => msg.set_Answer m (msg.Answer m ++ [rr])) rsp m.

(** The loop over the upstreams of [parseQuery] for one question: [Some]
    is the message at the [return] of the loop body, [None] the end of the
    loop. *)
Fixpoint upstreamLoop (m : Msg) (q : msg.DnsQuestion) (ups : list string)
  : M (option Msg) :=
  match ups with
  | [] => ret None
  | upstream :: rest =>
      r <- DoHQuery upstream (msg.Name q) (msg.Qtype q) ;;
      match r with
      | Err err =>
          emit (EvLog (upstream ++ " DOH Query Failed: " ++ err)) ;;;
          upstreamLoop m q rest
      | Ok rsp => ret (Some (appendAnswers m rsp))
      end
  end.

(** The loop over the questions. *)
Fixpoint questionLoop (m : Msg) (qs : list msg.DnsQuestion)
  : M (option Msg) :=
  match qs with
  | [] => ret None
  | q :: rest =>
      r <- upstreamLoop m q upstreams ;;
      match r with
      | Some m' => ret (Some m')
      | None => questionLoop m rest
      end
  end.

(** [parseQuery] changes the message [m] points to; here it returns it. *)
Definition parseQuery (m : Msg) (req : Msg) : M Msg :=
  r <- questionLoop m (msg.Question m) ;;
  match r with
  | Some m' => ret m'
  | None => HandleFailed req ;;; ret m
  end.

(** The reply [handleDnsRequest] prepares before it looks at the opcode. *)
Definition newReply (req : Msg) : Msg :=
  msg.set_Compress (msg.SetReply msg.new req) false.

Definition handleDnsRequest (req : Msg) : M unit :=
  if (List.length (msg.Question req) =? 0)%nat then HandleFailed req
  else
    let m := newReply req in
    m <- (if msg.Opcode req =? dns.OpcodeQuery
          then parseQuery m req
          else ret m) ;;
    WriteMsg m.

End Proxy.

(** ** The order of the upstream calls

    A call of [DoHQuery] is known by its arguments; the calls [parseQuery]
    can make for a message are those of its questions, in order, each with
    the upstreams in the order of the flag. *)
Definition attempt (q : msg.DnsQuestion) (upstream : string)
  : string * string * Z :=
  (upstream, msg.Name q, msg.Qtype q).

Definition attempts (upstreams : list string) (qs : list msg.DnsQuestion)
  : list (string * string * Z) :=
  flat_map (fun q => map (attempt q) upstreams) qs.

(** The calls made end with the first one that returns without error, with
    records [rs]: those before it failed, and they are the first of the
    attempts, in order. *)
Definition stops_at_success {RR} (atts : list (string * string * Z))
  (calls : list (Call RR)) (rs : list RR) : Prop :=
  exists fl a rest,
    calls = fl ++ [(a, Ok rs)] /\ Forall failed fl /\
    atts = map fst calls ++ rest.

(** Every attempt was made, in order, and failed. *)
Definition all_failed {RR} (atts : list (string * string * Z))
  (calls : list (Call RR)) : Prop :=
  Forall failed calls /\ map fst calls = atts.

Definition first_success {RR} (atts : list (string * string * Z))
  (calls : list (Call RR)) (o : option (list RR)) : Prop :=
  match o with
  | Some rs => stops_at_success atts calls rs
  | None => all_failed atts calls
  end.

(** What a computation adds to the trace it starts from. *)
Definition events_of {RR A} (c : IO RR A) (tr : Trace RR) : list (Event RR) :=
  skipn (List.length tr) (snd (c tr)).

(** The record [x] is the one parsed from the master-file text
    "<name> <TTL> IN <mnemonic> <data>" of the answer entry [a]. *)
Definition parsed_from {RR} (NewRR : string -> result RR) (a : Answer) (x : RR)
  : Prop :=
  exists t,
    typeToString (a_Type a) = Ok t /\
    NewRR (a_Name a ++ " " ++ fmt_d (a_TTL a) ++ " IN " ++ t ++ " "
             ++ a_Data a)%string = Ok x.

(** The entry [a] cannot be converted: its type has no mnemonic, or its
    text does not parse. *)
Definition unconvertible {RR} (NewRR : string -> result RR) (a : Answer)
  : Prop :=
  match typeToString (a_Type a) with
  | Err _ => True
  | Ok t =>
      is_err (NewRR (a_Name a ++ " " ++ fmt_d (a_TTL a) ++ " IN " ++ t ++ " "
                       ++ a_Data a)%string) = true
  end.

(** ** A small world to run the proxy in

    Records are their master-file text; the parser refuses a text with an
    exclamation mark; the network knows four hosts, and answers the same
    whatever happened before; a URL that starts with "://" does not
    parse. *)
Module demo.
Definition RR : Type := string.

Fixpoint has_bang (s : string) : bool :=
  match s with
  | String c s' => if Ascii.eqb c "!" then true else has_bang s'
  | EmptyString => false
  end.

Definition NewRR (s : string) : result RR :=
  if has_bang s then Err "dns: bad rdata" else Ok s.

Definition envelope (status : Z) (answers : list Answer) : Response :=
  mkResponse status false true true false false [] answers.

Definition example_com : Answer :=
  mkAnswer "example.com." 1 300 "93.184.216.34".

Definition with_cname : Response :=
  envelope 0 [mkAnswer "example.com." 5 60 "www.example.com.";
              mkAnswer "www.example.com." 1 300 "93.184.216.34"].

Definition json_Decode (body : string) : result Response :=
  if String.eqb body "one" then Ok (envelope 0 [example_com])
  else if String.eqb body "two" then Ok with_cname
  else if String.eqb body "empty" then Ok (envelope 0 [])
  else if String.eqb body "servfail" then Ok (envelope 2 [example_com])
  else if String.eqb body "odd" then
    Ok (envelope 0 [example_com; mkAnswer "example.com." 46 300 "sig"])
  else Err "invalid character".

(** An upstream without a scheme is refused when the request is built. *)
Definition url_error (url : string) : option string :=
  if String.prefix "://" url then Some "missing protocol scheme" else None.

Definition http_Do (tr : Trace RR) (rq : Request) : result string :=
  if String.eqb (req_url rq) "https://one.example/dns-query" then Ok "one"
  else if String.eqb (req_url rq) "https://two.example/dns-query" then Ok "two"
  else if String.eqb (req_url rq) "https://empty.example/dns-query"
  then Ok "empty"
  else if String.eqb (req_url rq) "https://servfail.example/dns-query"
  then Ok "servfail"
  else Err "connection refused".

Definition question (name : string) (qtype : Z) : msg.DnsQuestion :=
  msg.mkDnsQuestion name qtype 1.

(** A request as it comes off the wire. *)
Definition request (id opcode : Z) (qs : list msg.DnsQuestion) : msg.Msg RR :=
  msg.mkMsg id false opcode true false 0 false qs [].

Definition httpGet := httpGet RR url_error http_Do.
Definition DoHQuery := DoHQuery RR NewRR json_Decode url_error http_Do.
Definition parseQuery := parseQuery RR NewRR json_Decode url_error http_Do.
Definition handleDnsRequest :=
  handleDnsRequest RR NewRR json_Decode url_error http_Do.

Definition down : string := "https://down.example/dns-query".
Definition one : string := "https://one.example/dns-query".
Definition two : string := "https://two.example/dns-query".
Definition empty : string := "https://empty.example/dns-query".
Definition servfail : string := "https://servfail.example/dns-query".

(** A standard query with two questions, one without any, and a NOTIFY
    (opcode 4). *)
Definition query : msg.Msg RR :=
  request 7 dns.OpcodeQuery [question "example.com." 1; question "b.example." 28].

(** A standard query for a type without mnemonic (SRV, 33), then for an
    address. *)
Definition srv_then_a : msg.Msg RR :=
  request 12 dns.OpcodeQuery
    [question "_sip._tcp.example.com." 33; question "example.com." 1].

Definition no_question : msg.Msg RR := request 8 dns.OpcodeQuery [].

Definition notify : msg.Msg RR := request 9 4 [question "example.com." 6].
End demo.

(** ** The flags and the start of [main] *)

(** [flagStringList], the value of the [-upstream] flag. *)
Definition flagStringList := list string.

(** The method [Set] of [flagStringList]: the value is appended, the error
    is nil. *)
Definition flagStringList_Set (i : flagStringList) (value : string)
  : flagStringList * option string :=
  (i ++ [value], None).

(** What [flag.Parse] does with the occurrences of a flag that was
    registered by [flag.Var]: [Set] is called with each value, in the order
    of the command line, and the first error stops the parsing. *)
Fixpoint parseUpstreamFlags (i : flagStringList) (values : list string)
  : result flagStringList :=
  match values with
  | [] => Ok i
  | value :: rest =>
      match flagStringList_Set i value with
      | (i', None) => parseUpstreamFlags i' rest
      | (_, Some e) => Err e
      end
  end.

(** The check [main] makes after [flag.Parse], before it opens the
    socket: [log.Fatalf] ends the process. *)
Definition requireUpstream (upstreams : flagStringList) : result unit :=
  if (List.length upstreams =? 0)%nat then Err "-upstream is required"
  else Ok tt.

(** ** What the trace of a handling is compared with *)

(** The line [parseQuery] logs for a call of [DoHQuery], if it failed. *)
Definition failure_line {RR} (c : Call RR) : list string :=
  match c with
  | ((upstream, _, _), Err err) =>
      [(upstream ++ " DOH Query Failed: " ++ err)%string]
  | (_, Ok _) => []
  end.

(** A request to one of the upstreams for one of the questions: a GET with
    the deadline of the flag, the Accept header of the JSON API, and the
    name and the mnemonic of the type as parameters. *)
Definition request_for (timeout : Z) (upstreams : list string)
  (qs : list msg.DnsQuestion) (rq : Request) : Prop :=
  req_method rq = "GET" /\
  req_header rq = [("Accept", "application/dns-json")] /\
  req_ctx rq = requestContext timeout /\
  In (req_url rq) upstreams /\
  exists q t,
    In q qs /\ typeToString (msg.Qtype q) = Ok t /\
    req_query rq = [("name", msg.Name q); ("type", t)].

(** * Properties *)

(** ** Traces *)

Section Traces.
Context {RR : Type}.

Lemma doh_calls_app (t1 t2 : Trace RR) :
  doh_calls (t1 ++ t2) = doh_calls t1 ++ doh_calls t2.
Proof.
  induction t1 as [|e t1 IH]; simpl; [reflexivity|].
  destruct e; simpl; rewrite IH; reflexivity.
Qed.

Lemma written_app (t1 t2 : Trace RR) :
  written (t1 ++ t2) = written t1 ++ written t2.
Proof.
  induction t1 as [|e t1 IH]; simpl; [reflexivity|].
  destruct e; simpl; rewrite IH; reflexivity.
Qed.

Lemma http_requests_app (t1 t2 : Trace RR) :
  http_requests (t1 ++ t2) = http_requests t1 ++ http_requests t2.
Proof.
  induction t1 as [|e t1 IH]; simpl; [reflexivity|].
  destruct e; simpl; rewrite IH; reflexivity.
Qed.

Lemma set_Answer_same (m : msg.Msg RR) : msg.set_Answer m (msg.Answer m) = m.
Proof. destruct m; reflexivity. Qed.

Lemma set_Answer_twice (m : msg.Msg RR) (a b : list RR) :
  msg.set_Answer (msg.set_Answer m a) b = msg.set_Answer m b.
Proof. reflexivity. Qed.

(** The loop that appends the records one by one appends them all, in
    order. *)
Lemma appendAnswers_app (rsp : list RR) (m : msg.Msg RR) :
  appendAnswers RR m rsp = msg.set_Answer m (msg.Answer m ++ rsp).
Proof.
  unfold appendAnswers. revert m.
  induction rsp as [|rr rsp IH]; intros m; simpl.
  - rewrite app_nil_r. symmetry. apply set_Answer_same.
  - rewrite IH. simpl. rewrite <- app_assoc. reflexivity.
Qed.

Lemma first_success_after_failed (a1 a2 : list (string * string * Z))
  (c1 c2 : list (Call RR)) (o : option (list RR)) :
  Forall failed c1 -> map fst c1 = a1 -> first_success a2 c2 o ->
  first_success (a1 ++ a2) (c1 ++ c2) o.
Proof.
  intros Hf Ha Hs. destruct o as [rs|]; simpl in *.
  - unfold stops_at_success in *. destruct Hs as (fl & a & rest & Hc & Hfl & Hatt).
    exists (c1 ++ fl), a, rest. repeat split.
    + rewrite Hc. apply app_assoc.
    + apply Forall_app. split; assumption.
    + rewrite Hatt, <- Ha, map_app, <- app_assoc. reflexivity.
  - unfold all_failed in *. destruct Hs as [Hf2 Ha2]. split.
    + apply Forall_app. split; assumption.
    + rewrite <- Ha, <- Ha2, map_app. reflexivity.
Qed.

End Traces.

(** ** The type mapper *)

Lemma typeToString_supported (c : Z) :
  In c supported -> exists s, typeToString c = Ok s.
Proof.
  unfold supported. simpl. intros H.
  repeat (destruct H as [H|H]; [subst c; eexists; reflexivity|]).
  contradiction.
Qed.

Lemma typeToString_unsupported (c : Z) :
  ~ In c supported -> typeToString c = Err ("Unsupported type " ++ fmt_d c).
Proof.
  unfold supported, typeToString. simpl. intros H.
  repeat match goal with
  | |- context [c =? ?k] =>
      destruct (Z.eqb_spec c k) as [E|_]; [exfalso; apply H; rewrite E; tauto|]
  end.
  reflexivity.
Qed.

Lemma typeToString_ok_supported (c : Z) (s : string) :
  typeToString c = Ok s -> In c supported.
Proof.
  unfold supported, typeToString. simpl.
  repeat match goal with
  | |- context [c =? ?k] =>
      destruct (Z.eqb_spec c k) as [E|_]; [rewrite E; tauto|]
  end.
  discriminate.
Qed.

Lemma typeToString_inj (c1 c2 : Z) (s : string) :
  typeToString c1 = Ok s -> typeToString c2 = Ok s -> c1 = c2.
Proof.
  intros H1 H2.
  pose proof (typeToString_ok_supported _ _ H1) as I1.
  pose proof (typeToString_ok_supported _ _ H2) as I2.
  unfold supported in I1, I2. simpl in I1, I2.
  repeat (destruct I1 as [I1|I1]; [subst c1|]); try contradiction;
    repeat (destruct I2 as [I2|I2]; [subst c2|]); try contradiction;
    first [reflexivity | (vm_compute in H1, H2; congruence)].
Qed.

(** C7, as the code has it: the type mapper gives each of the ten
    supported codes its own mnemonic, no two codes share one, and every
    other code (100, say; 99 is SPF) fails with the unsupported-type error
    that names the code. *)
Theorem typeToString_table :
  map typeToString supported =
    [Ok "A"; Ok "AAAA"; Ok "CNAME"; Ok "MX"; Ok "TXT"; Ok "SPF"; Ok "NS";
     Ok "SOA"; Ok "PTR"; Ok "ANY"] /\
  (forall c, In c supported -> exists s, typeToString c = Ok s) /\
  (forall c1 c2 s, typeToString c1 = Ok s -> typeToString c2 = Ok s -> c1 = c2) /\
  (forall c, ~ In c supported ->
             typeToString c = Err ("Unsupported type " ++ fmt_d c)) /\
  typeToString 100 = Err "Unsupported type 100".
Proof.
  split; [reflexivity|].
  split; [exact typeToString_supported|].
  split; [exact typeToString_inj|].
  split; [exact typeToString_unsupported|reflexivity].
Qed.

(** C7, the example of the claim: code 99 is [dns.TypeSPF], one of the
    supported codes, and the type mapper does not fail on it. *)
Lemma typeToString_99_is_SPF :
  In 99 supported /\ typeToString 99 = Ok "SPF" /\
  ~ (exists e, typeToString 99 = Err e).
Proof.
  split; [simpl; tauto|]. split; [reflexivity|].
  intros [e H]. discriminate H.
Qed.

(** ** The deadline of the HTTP request *)

Lemma requestContext_disabled (timeout : Z) :
  timeout <= 0 -> requestContext timeout = Background.
Proof.
  intros H. unfold requestContext.
  destruct (Z.ltb_spec 0 timeout); [lia|reflexivity].
Qed.

Lemma requestContext_seconds (timeout : Z) :
  0 < timeout -> timeout * Second < 2 ^ 63 ->
  requestContext timeout = WithTimeout (timeout * Second).
Proof.
  intros H Hb. unfold requestContext, mul64, wrap64.
  destruct (Z.ltb_spec 0 timeout); [|lia].
  f_equal. unfold Second in *.
  rewrite Z.mod_small; lia.
Qed.

(** ** The loops of [parseQuery] *)

Section Selector.
Variable RR : Type.
Variable NewRR : string -> result RR.
Variable json_Decode : string -> result Response.
Variable url_error : string -> option string.
Variable http_Do : Trace RR -> Request -> result string.
Variable timeout : Z.
Variable upstreams : list string.

Local Abbreviation DoHQuery' := (DoHQuery RR NewRR json_Decode url_error http_Do timeout).
Local Abbreviation upstreamLoop' :=
  (upstreamLoop RR NewRR json_Decode url_error http_Do timeout).
Local Abbreviation questionLoop' :=
  (questionLoop RR NewRR json_Decode url_error http_Do timeout upstreams).
Local Abbreviation parseQuery' :=
  (parseQuery RR NewRR json_Decode url_error http_Do timeout upstreams).
Local Abbreviation handleDnsRequest' :=
  (handleDnsRequest RR NewRR json_Decode url_error http_Do timeout upstreams).

(** A call of [DoHQuery] adds its own record to the trace, after at most
    one HTTP exchange, and writes nothing to the client. *)
Lemma DoHQuery_run (upstream name : string) (dnsType : Z) (tr : Trace RR) :
  exists ev r,
    DoHQuery' upstream name dnsType tr
      = (r, tr ++ ev ++ [EvDoH upstream name dnsType r]) /\
    doh_calls ev = [] /\ written ev = [].
Proof.
  unfold DoHQuery, DoHQuery_body, bind, emit, ret, httpGet.
  destruct (typeToString dnsType) as [t|e].
  - destruct (url_error upstream) as [err|].
    + exists [], (Err err). simpl. auto.
    + match goal with
      | |- context [EvHTTP ?rq ?r] => exists [EvHTTP rq r]
      end.
      destruct (http_Do tr _) as [body|e].
      * destruct (json_Decode body) as [rr|e]; eexists;
          rewrite <- app_assoc; simpl; auto.
      * eexists. rewrite <- app_assoc; simpl; auto.
  - exists [], (Err e). simpl. auto.
Qed.

Lemma upstreamLoop_spec (m : msg.Msg RR) (q : msg.DnsQuestion)
  (ups : list string) (tr : Trace RR) :
  exists new o,
    upstreamLoop' m q ups tr = (option_map (appendAnswers RR m) o, tr ++ new) /\
    written new = [] /\
    first_success (map (attempt q) ups) (doh_calls new) o.
Proof.
  revert tr. induction ups as [|u ups IH]; intros tr.
  - exists [], None. simpl. unfold ret, all_failed. rewrite app_nil_r. auto.
  - simpl. unfold bind at 1.
    destruct (DoHQuery_run u (msg.Name q) (msg.Qtype q) tr)
      as (ev & r & Hrun & Hcalls & Hw).
    rewrite Hrun. destruct r as [rsp|err].
    + exists (ev ++ [EvDoH u (msg.Name q) (msg.Qtype q) (Ok rsp)]), (Some rsp).
      unfold ret. simpl. rewrite doh_calls_app, written_app, Hcalls, Hw. simpl.
      repeat split.
      exists [], (attempt q u), (map (attempt q) ups). simpl. auto.
    + unfold bind, emit.
      match goal with
      | |- context [upstreamLoop' m q ups ?t] =>
          destruct (IH t) as (new & o & Hloop & Hw' & Hsel)
      end.
      rewrite Hloop.
      set (c := EvDoH u (msg.Name q) (msg.Qtype q) (@Err (list RR) err)).
      set (l := @EvLog RR (u ++ " DOH Query Failed: " ++ err)%string).
      exists (ev ++ [c] ++ [l] ++ new), o.
      repeat split.
      * repeat rewrite <- app_assoc. reflexivity.
      * rewrite !written_app, Hw, Hw'. reflexivity.
      * rewrite !doh_calls_app, Hcalls. simpl.
        apply (first_success_after_failed [attempt q u] _
                 [(attempt q u, Err err)]); auto.
        constructor; [reflexivity | constructor].
Qed.

Lemma questionLoop_spec (m : msg.Msg RR) (qs : list msg.DnsQuestion)
  (tr : Trace RR) :
  exists new o,
    questionLoop' m qs tr = (option_map (appendAnswers RR m) o, tr ++ new) /\
    written new = [] /\
    first_success (attempts upstreams qs) (doh_calls new) o.
Proof.
  revert tr. induction qs as [|q qs IH]; intros tr.
  - exists [], None. simpl. unfold ret, all_failed. rewrite app_nil_r. auto.
  - simpl. unfold bind at 1.
    destruct (upstreamLoop_spec m q upstreams tr)
      as (new1 & o1 & Hrun & Hw1 & Hsel1).
    rewrite Hrun. destruct o1 as [rs|]; simpl.
    + exists new1, (Some rs). unfold ret. repeat split; auto.
      simpl in *. destruct Hsel1 as (fl & a & rest & Hc & Hfl & Hatt).
      exists fl, a, (rest ++ attempts upstreams qs). repeat split; auto.
      unfold attempt in *. rewrite Hatt, <- app_assoc. reflexivity.
    + destruct (IH (tr ++ new1)) as (new2 & o2 & Hrun2 & Hw2 & Hsel2).
      rewrite Hrun2. exists (new1 ++ new2), o2. repeat split.
      * rewrite app_assoc. reflexivity.
      * rewrite written_app, Hw1, Hw2. reflexivity.
      * rewrite doh_calls_app. destruct Hsel1 as [Hf Ha].
        apply first_success_after_failed; auto.
Qed.

(** [parseQuery]: the calls stop at the first success, whose records are
    appended to the message; when every call failed, the message is left
    as it was and the SERVFAIL reply is written. *)
Lemma parseQuery_spec (m req : msg.Msg RR) (tr : Trace RR) :
  exists new o,
    first_success (attempts upstreams (msg.Question m)) (doh_calls new) o /\
    parseQuery' m req tr =
      match o with
      | Some rs => (msg.set_Answer m (msg.Answer m ++ rs), tr ++ new)
      | None => (m, tr ++ new)
      end /\
    written new =
      match o with
      | Some _ => []
      | None => [failedReply RR req]
      end.
Proof.
  unfold parseQuery, bind.
  destruct (questionLoop_spec m (msg.Question m) tr)
    as (new & o & Hrun & Hw & Hsel).
  rewrite Hrun. destruct o as [rs|]; simpl.
  - exists new, (Some rs). unfold ret. rewrite appendAnswers_app. auto.
  - exists (new ++ [EvWrite (failedReply RR req)]), None.
    unfold HandleFailed, WriteMsg, emit, ret.
    rewrite doh_calls_app, written_app, Hw, app_assoc. simpl.
    rewrite app_nil_r. auto.
Qed.

(** The handler on a standard query with a question: [parseQuery] on the
    prepared reply, then the reply is written. *)
Lemma handle_query_spec (req : msg.Msg RR) (tr : Trace RR) :
  msg.Opcode req = dns.OpcodeQuery -> msg.Question req <> [] ->
  exists new o,
    handleDnsRequest' req tr = (tt, tr ++ new) /\
    first_success (attempts upstreams (msg.Question (newReply RR req)))
      (doh_calls new) o /\
    written new =
      match o with
      | Some rs => [msg.set_Answer (newReply RR req) rs]
      | None => [failedReply RR req; newReply RR req]
      end.
Proof.
  intros Hop Hq. unfold handleDnsRequest.
  destruct (msg.Question req) as [|q0 qs] eqn:Eq; [congruence|].
  cbn [List.length Nat.eqb]. rewrite Hop, Z.eqb_refl. cbv zeta.
  unfold bind.
  destruct (parseQuery_spec (newReply RR req) req tr)
    as (new & o & Hsel & Hrun & Hw).
  rewrite Hrun. unfold WriteMsg, emit.
  destruct o as [rs|].
  - exists (new ++ [EvWrite (msg.set_Answer (newReply RR req) rs)]), (Some rs).
    rewrite doh_calls_app, written_app, Hw, app_assoc. simpl.
    rewrite app_nil_r. auto.
  - exists (new ++ [EvWrite (newReply RR req)]), None.
    rewrite doh_calls_app, written_app, Hw, app_assoc. simpl.
    rewrite app_nil_r. auto.
Qed.

(** ** The events a computation adds *)

Lemma events_of_ext {A} (c : IO RR A) (tr new : Trace RR) (a : A) :
  c tr = (a, tr ++ new) -> events_of c tr = new.
Proof.
  intros H. unfold events_of. rewrite H. simpl.
  rewrite skipn_app, skipn_all, Nat.sub_diag. reflexivity.
Qed.

(** ** The DoH client *)

Local Abbreviation httpGet' := (httpGet RR url_error http_Do).
Local Abbreviation answersLoop' := (answersLoop RR NewRR).
Local Abbreviation fromEnvelope' := (fromEnvelope RR NewRR).

(** Once the body is there and decoded, the result of [DoHQuery] is that of
    the envelope. *)
Lemma DoHQuery_decoded (upstream name : string) (dnsType : Z) (t : string)
  (tr : Trace RR) (body : string) (rr : Response) :
  typeToString dnsType = Ok t ->
  fst (httpGet' (requestContext timeout) upstream
         [("name", name); ("type", TrimSpace t)] tr) = Ok body ->
  json_Decode body = Ok rr ->
  fst (DoHQuery' upstream name dnsType tr) = fromEnvelope' rr.
Proof.
  intros Ht Hb Hj.
  unfold DoHQuery, DoHQuery_body, bind, emit, ret. rewrite Ht.
  unfold httpGet in *.
  destruct (url_error upstream) as [err|]; [discriminate Hb|].
  simpl in Hb. rewrite Hb, Hj. reflexivity.
Qed.

Lemma answersLoop_ok (answers : list Answer) (acc rrs : list RR) :
  answersLoop' acc answers = Ok rrs <->
  exists rs, rrs = acc ++ rs /\ Forall2 (parsed_from NewRR) answers rs.
Proof.
  revert acc. induction answers as [|a answers IH]; intros acc; simpl.
  - split.
    + intros H. injection H as <-. exists []. rewrite app_nil_r.
      split; [reflexivity|constructor].
    + intros (rs & -> & H). inversion H. rewrite app_nil_r. reflexivity.
  - split.
    + intros H.
      destruct (typeToString (a_Type a)) as [t|e] eqn:Et; [|discriminate].
      destruct (NewRR (rrText a t)) as [x|e] eqn:Ex; [|discriminate].
      apply IH in H. destruct H as (rs & -> & HF).
      exists (x :: rs). rewrite <- app_assoc. split; [reflexivity|].
      constructor; [|assumption]. exists t. split; assumption.
    + intros (rs & -> & H). inversion H as [|a' x answers' rs' Hp HF]; subst.
      destruct Hp as (t & Et & Ex). rewrite Et.
      unfold rrText. rewrite Ex. apply IH.
      exists rs'. rewrite <- app_assoc. split; [reflexivity|assumption].
Qed.

Lemma answersLoop_err (answers : list Answer) (acc : list RR) (a : Answer) :
  In a answers -> unconvertible NewRR a ->
  exists e, answersLoop' acc answers = Err e.
Proof.
  revert acc. induction answers as [|b answers IH]; intros acc Hin Hun.
  - contradiction.
  - simpl. destruct (typeToString (a_Type b)) as [t|e] eqn:Et;
      [|eexists; reflexivity].
    destruct (NewRR (rrText b t)) as [x|e] eqn:Ex; [|eexists; reflexivity].
    destruct Hin as [->|Hin].
    + unfold unconvertible in Hun. rewrite Et in Hun.
      unfold rrText in Ex. rewrite Ex in Hun. discriminate.
    + apply IH; assumption.
Qed.

(** C2: from a decoded envelope with status 0, the call succeeds with
    records [rrs] exactly when [rrs] are, entry by entry and in the order
    of the answer list, the records parsed from the texts
    "<name> <TTL> IN <mnemonic> <data>"; one entry whose type has no
    mnemonic or whose text does not parse makes the whole call fail. *)
Theorem DoHQuery_converts_answers (upstream name : string) (dnsType : Z)
  (t : string) (tr : Trace RR) (body : string) (rr : Response) :
  typeToString dnsType = Ok t ->
  fst (httpGet' (requestContext timeout) upstream
         [("name", name); ("type", TrimSpace t)] tr) = Ok body ->
  json_Decode body = Ok rr ->
  Status rr = 0 ->
  (forall rrs,
     fst (DoHQuery' upstream name dnsType tr) = Ok rrs <->
     Forall2 (parsed_from NewRR) (r_Answer rr) rrs) /\
  (forall a, In a (r_Answer rr) -> unconvertible NewRR a ->
     exists e, fst (DoHQuery' upstream name dnsType tr) = Err e).
Proof.
  intros Ht Hb Hj Hs.
  rewrite (DoHQuery_decoded _ _ _ _ _ _ _ Ht Hb Hj).
  unfold fromEnvelope. rewrite Hs. simpl. split.
  - intros rrs. rewrite answersLoop_ok. split.
    + intros (rs & -> & H). exact H.
    + intros H. exists rrs. split; [reflexivity|exact H].
  - intros a Hin Hun. apply (answersLoop_err _ _ a); assumption.
Qed.

(** C5: from a decoded envelope with a status that is not 0, the call
    fails with the error that carries the status, whatever the answer list
    holds. *)
Theorem DoHQuery_rejects_status (upstream name : string) (dnsType : Z)
  (t : string) (tr : Trace RR) (body : string) (rr : Response) :
  typeToString dnsType = Ok t ->
  fst (httpGet' (requestContext timeout) upstream
         [("name", name); ("type", TrimSpace t)] tr) = Ok body ->
  json_Decode body = Ok rr ->
  Status rr <> 0 ->
  fst (DoHQuery' upstream name dnsType tr)
    = Err ("DOH failed response code " ++ fmt_d (Status rr)).
Proof.
  intros Ht Hb Hj Hs.
  rewrite (DoHQuery_decoded _ _ _ _ _ _ _ Ht Hb Hj).
  unfold fromEnvelope. destruct (Z.eqb_spec (Status rr) 0); [contradiction|].
  reflexivity.
Qed.

(** The request [DoHQuery] sends for a question whose type has a
    mnemonic: none when the request cannot be built. *)
Lemma DoHQuery_request (upstream name : string) (dnsType : Z) (t : string)
  (tr : Trace RR) :
  typeToString dnsType = Ok t ->
  http_requests (events_of (DoHQuery' upstream name dnsType) tr)
    = match url_error upstream with
      | Some _ => []
      | None =>
          [mkRequest (requestContext timeout) "GET" upstream
             [("Accept", "application/dns-json")]
             [("name", name); ("type", TrimSpace t)]]
      end.
Proof.
  intros Ht.
  set (rq := mkRequest (requestContext timeout) "GET" upstream
               [("Accept", "application/dns-json")]
               [("name", name); ("type", TrimSpace t)]).
  assert (H : exists r,
    DoHQuery' upstream name dnsType tr
      = (r, tr ++ match url_error upstream with
                  | Some _ => []
                  | None => [EvHTTP rq (http_Do tr rq)]
                  end ++ [EvDoH upstream name dnsType r])).
  { unfold DoHQuery, DoHQuery_body, bind, emit, ret, httpGet. rewrite Ht.
    fold rq. destruct (url_error upstream) as [err|]; [eexists; reflexivity|].
    destruct (http_Do tr rq) as [body|e].
    - destruct (json_Decode body) as [rr|e]; eexists;
        rewrite <- app_assoc; reflexivity.
    - eexists. rewrite <- app_assoc. reflexivity. }
  destruct H as [r H]. rewrite (events_of_ext _ _ _ _ H).
  destruct (url_error upstream); reflexivity.
Qed.

(** ** The handler *)

Lemma failed_not_ok (fl : list (Call RR)) (a : string * string * Z)
  (rs : list RR) :
  Forall failed fl -> ~ In (a, Ok rs) fl.
Proof.
  intros HF Hin. rewrite Forall_forall in HF.
  specialize (HF _ Hin). discriminate HF.
Qed.

(** The question section of the reply, as [SetReply] fills it. *)
Lemma newReply_Question (req : msg.Msg RR) :
  msg.Question (newReply RR req) = firstn 1 (msg.Question req).
Proof. destruct req as [? ? ? ? ? ? ? [|q qs] ?]; reflexivity. Qed.

(** C1, as the code has it: [parseQuery], on whatever message it is given,
    calls [DoHQuery] along the questions of that message and, for each,
    the upstreams, in order; the first call that returns without error
    ends them, its records and no others are appended to the answer
    section, and nothing else is tried; a call that fails is followed by
    the next one, until none is left. The handler gives it the reply, which
    holds the first question of the request and no other: on a standard
    query the calls are for that question with the upstreams in order, and
    the later questions of the request are not tried, whether the first
    one is answered or not. *)
Theorem first_question_first_success (req : msg.Msg RR) (tr : Trace RR)
  (q0 : msg.DnsQuestion) :
  msg.Opcode req = dns.OpcodeQuery ->
  hd_error (msg.Question req) = Some q0 ->
  (forall (m : msg.Msg RR) (tr0 : Trace RR),
     let new := events_of (parseQuery' m req) tr0 in
     let m' := fst (parseQuery' m req tr0) in
     let atts := attempts upstreams (msg.Question m) in
     snd (parseQuery' m req tr0) = tr0 ++ new /\
     ((exists rs, stops_at_success atts (doh_calls new) rs /\
                  m' = msg.set_Answer m (msg.Answer m ++ rs) /\
                  written new = []) \/
      (all_failed atts (doh_calls new) /\ m' = m))) /\
  let new := events_of (handleDnsRequest' req) tr in
  let atts := map (attempt q0) upstreams in
  snd (handleDnsRequest' req tr) = tr ++ new /\
  ((exists rs m,
      stops_at_success atts (doh_calls new) rs /\
      written new = [m] /\
      msg.Id m = msg.Id req /\ msg.Rcode m = dns.RcodeSuccess /\
      msg.Question m = [q0] /\ msg.Answer m = rs) \/
   all_failed atts (doh_calls new)).
Proof.
  intros Hop Hhd.
  assert (Hq : msg.Question req <> [])
    by (destruct (msg.Question req); [discriminate Hhd|discriminate]).
  assert (Hqs : msg.Question (newReply RR req) = [q0]).
  { rewrite newReply_Question.
    destruct (msg.Question req) as [|q qs]; [discriminate Hhd|].
    injection Hhd as ->. reflexivity. }
  split.
  - intros m tr0.
    destruct (parseQuery_spec m req tr0) as (new & o & Hsel & Hrun & Hw).
    destruct o as [rs|]; cbv zeta; rewrite (events_of_ext _ _ _ _ Hrun), Hrun;
      simpl; (split; [reflexivity|]).
    + left. exists rs. auto.
    + right. auto.
  - destruct (handle_query_spec req tr Hop Hq) as (new & o & Hrun & Hsel & Hw).
    cbv zeta. rewrite (events_of_ext _ _ _ _ Hrun), Hrun. simpl.
    split; [reflexivity|].
    rewrite Hqs in Hsel. unfold attempts in Hsel. simpl in Hsel.
    rewrite app_nil_r in Hsel.
    destruct o as [rs|]; [left|right; exact Hsel].
    exists rs, (msg.set_Answer (newReply RR req) rs).
    split; [exact Hsel|]. split; [exact Hw|].
    split; [reflexivity|]. split; [reflexivity|].
    split; [exact Hqs|reflexivity].
Qed.

(** C8: a request without a question gets the SERVFAIL reply and nothing
    else happens: no call of [DoHQuery], no HTTP request. *)
Theorem no_question_fails (req : msg.Msg RR) (tr : Trace RR) :
  msg.Question req = [] ->
  let new := events_of (handleDnsRequest' req) tr in
  snd (handleDnsRequest' req tr) = tr ++ new /\
  new = [EvWrite (failedReply RR req)] /\
  msg.Rcode (failedReply RR req) = dns.RcodeServerFailure /\
  msg.Id (failedReply RR req) = msg.Id req /\
  doh_calls new = [] /\ http_requests new = [].
Proof.
  intros Hq.
  assert (H : handleDnsRequest' req tr
              = (tt, tr ++ [EvWrite (failedReply RR req)])).
  { unfold handleDnsRequest. rewrite Hq. reflexivity. }
  cbv zeta. rewrite (events_of_ext _ _ _ _ H), H. simpl.
  repeat split; reflexivity.
Qed.

(** C3, as the code has it: a request whose opcode is not QUERY never
    reaches [parseQuery]; no upstream is called. With a question it gets
    one message, the prepared reply, whose rcode is success and whose
    answer section is empty; the SERVFAIL reply is only that of a request
    without a question. *)
Theorem other_opcode_plain_reply (req : msg.Msg RR) (tr : Trace RR) :
  msg.Opcode req <> dns.OpcodeQuery ->
  let new := events_of (handleDnsRequest' req) tr in
  snd (handleDnsRequest' req tr) = tr ++ new /\
  doh_calls new = [] /\ http_requests new = [] /\
  (msg.Question req <> [] ->
     new = [EvWrite (newReply RR req)] /\
     msg.Rcode (newReply RR req) = dns.RcodeSuccess /\
     msg.Answer (newReply RR req) = [] /\
     msg.Id (newReply RR req) = msg.Id req) /\
  (msg.Question req = [] ->
     new = [EvWrite (failedReply RR req)] /\
     msg.Rcode (failedReply RR req) = dns.RcodeServerFailure).
Proof.
  intros Hop.
  assert (H : handleDnsRequest' req tr
              = (tt, tr ++ [EvWrite (if (List.length (msg.Question req) =? 0)%nat
                                     then failedReply RR req
                                     else newReply RR req)])).
  { unfold handleDnsRequest.
    destruct (List.length (msg.Question req) =? 0)%nat; [reflexivity|].
    destruct (Z.eqb_spec (msg.Opcode req) dns.OpcodeQuery); [contradiction|].
    reflexivity. }
  cbv zeta. rewrite (events_of_ext _ _ _ _ H), H. simpl.
  split; [reflexivity|]. split; [reflexivity|]. split; [reflexivity|].
  split; intros Hq.
  - destruct (msg.Question req); [congruence|]. simpl.
    repeat split; reflexivity.
  - rewrite Hq. simpl. repeat split; reflexivity.
Qed.

Lemma all_failed_writes (req : msg.Msg RR) (tr : Trace RR) :
  msg.Opcode req = dns.OpcodeQuery -> msg.Question req <> [] ->
  let new := events_of (handleDnsRequest' req) tr in
  Forall failed (doh_calls new) ->
  all_failed (attempts upstreams (msg.Question (newReply RR req)))
    (doh_calls new) /\
  written new = [failedReply RR req; newReply RR req].
Proof.
  intros Hop Hq.
  destruct (handle_query_spec req tr Hop Hq) as (new & o & Hrun & Hsel & Hw).
  cbv zeta. rewrite (events_of_ext _ _ _ _ Hrun). intros HF.
  destruct o as [rs|]; [|split; assumption].
  exfalso. destruct Hsel as (fl & a & rest & Hc & _ & _).
  apply (failed_not_ok _ a rs HF). rewrite Hc.
  apply in_or_app. right. left. reflexivity.
Qed.

(** C9: when every call of [DoHQuery] for a standard query failed, all
    the attempts were made and two messages are written to the client:
    first the SERVFAIL reply from inside [parseQuery], then the prepared
    reply, with rcode success and no answer. *)
Theorem all_failed_two_writes (req : msg.Msg RR) (tr : Trace RR) :
  msg.Opcode req = dns.OpcodeQuery -> msg.Question req <> [] ->
  let new := events_of (handleDnsRequest' req) tr in
  Forall failed (doh_calls new) ->
  map fst (doh_calls new)
    = attempts upstreams (msg.Question (newReply RR req)) /\
  written new = [failedReply RR req; newReply RR req] /\
  msg.Rcode (failedReply RR req) = dns.RcodeServerFailure /\
  msg.Rcode (newReply RR req) = dns.RcodeSuccess /\
  msg.Answer (newReply RR req) = [] /\
  failedReply RR req <> newReply RR req.
Proof.
  intros Hop Hq new HF.
  destruct (all_failed_writes req tr Hop Hq HF) as [[_ Ha] Hw].
  repeat split; try assumption; try reflexivity.
  intros E. apply (f_equal msg.Rcode) in E. discriminate E.
Qed.

(** C10: an envelope with status 0 and no answer makes [DoHQuery] return
    an empty list of records without error; and a call that returned so
    is the last one of the handling, whose only message is the prepared
    reply: rcode success, no answer. *)
Theorem empty_answer_is_success :
  (forall (upstream name : string) (dnsType : Z) (t : string)
          (tr : Trace RR) (body : string) (rr : Response),
     typeToString dnsType = Ok t ->
     fst (httpGet' (requestContext timeout) upstream
            [("name", name); ("type", TrimSpace t)] tr) = Ok body ->
     json_Decode body = Ok rr ->
     Status rr = 0 -> r_Answer rr = [] ->
     fst (DoHQuery' upstream name dnsType tr) = Ok []) /\
  (forall (req : msg.Msg RR) (tr : Trace RR) (a : string * string * Z),
     msg.Opcode req = dns.OpcodeQuery -> msg.Question req <> [] ->
     let new := events_of (handleDnsRequest' req) tr in
     In (a, Ok []) (doh_calls new) ->
     (exists fl rest,
        doh_calls new = fl ++ [(a, Ok [])] /\ Forall failed fl /\
        attempts upstreams (msg.Question (newReply RR req))
          = map fst (doh_calls new) ++ rest) /\
     written new = [newReply RR req] /\
     msg.Rcode (newReply RR req) = dns.RcodeSuccess /\
     msg.Answer (newReply RR req) = []).
Proof.
  split.
  - intros upstream name dnsType t tr body rr Ht Hb Hj Hs Ha.
    rewrite (DoHQuery_decoded _ _ _ _ _ _ _ Ht Hb Hj).
    unfold fromEnvelope. rewrite Hs, Ha. reflexivity.
  - intros req tr a Hop Hq.
    destruct (handle_query_spec req tr Hop Hq) as (new & o & Hrun & Hsel & Hw).
    cbv zeta. rewrite (events_of_ext _ _ _ _ Hrun). intros Hin.
    destruct o as [rs|].
    + destruct Hsel as (fl & a' & rest & Hc & HF & Hatt).
      rewrite Hc in Hin. apply in_app_or in Hin. destruct Hin as [Hin|Hin].
      * exfalso. exact (failed_not_ok _ _ _ HF Hin).
      * destruct Hin as [E|[]]. injection E as -> ->.
        split; [exists fl, rest; auto|].
        rewrite Hw. repeat split; reflexivity.
    + exfalso. destruct Hsel as [HF _]. exact (failed_not_ok _ _ _ HF Hin).
Qed.

End Selector.

(** ** Failure of every upstream *)

(** C4: when every call of [DoHQuery] for a standard query failed, the
    handler writes the SERVFAIL reply with the id of the request; the
    messages it writes are made from the request alone, so that they are
    the same whatever the upstreams, the errors, the parser and the network
    were. *)
Theorem all_failed_servfail (RR : Type) (NewRR : string -> result RR)
  (json_Decode : string -> result Response)
  (url_error : string -> option string)
  (http_Do : Trace RR -> Request -> result string) (timeout : Z)
  (upstreams : list string) (req : msg.Msg RR) (tr : Trace RR) :
  msg.Opcode req = dns.OpcodeQuery -> msg.Question req <> [] ->
  let new :=
    events_of
      (handleDnsRequest RR NewRR json_Decode url_error http_Do timeout upstreams req) tr in
  Forall failed (doh_calls new) ->
  (exists rest, written new = failedReply RR req :: rest) /\
  msg.Rcode (failedReply RR req) = dns.RcodeServerFailure /\
  msg.Id (failedReply RR req) = msg.Id req /\
  Forall (fun m => msg.Id m = msg.Id req /\ msg.Answer m = []) (written new) /\
  (forall NewRR2 json_Decode2 url_error2 http_Do2 timeout2 upstreams2 tr2,
     let new2 :=
       events_of
         (handleDnsRequest RR NewRR2 json_Decode2 url_error2 http_Do2 timeout2 upstreams2
            req) tr2 in
     Forall failed (doh_calls new2) -> written new2 = written new).
Proof.
  intros Hop Hq new HF. subst new.
  destruct (all_failed_writes RR NewRR json_Decode url_error http_Do timeout upstreams
              req tr Hop Hq HF) as [_ Hw].
  split; [eexists; exact Hw|].
  split; [reflexivity|]. split; [reflexivity|]. split.
  - rewrite Hw. repeat constructor.
  - intros NewRR2 json_Decode2 url_error2 http_Do2 timeout2 upstreams2 tr2 new2 HF2.
    destruct (all_failed_writes RR NewRR2 json_Decode2 url_error2 http_Do2 timeout2
                upstreams2 req tr2 Hop Hq HF2) as [_ Hw2].
    unfold new2. rewrite Hw, Hw2. reflexivity.
Qed.

(** ** The deadline, when the flag is ten seconds *)

(** C6, at [-timeout 10s]: the flag is the duration of ten seconds, 10^10
    nanoseconds; its product with [time.Second] wraps around in int64 to a
    negative duration, and that is the deadline of the request the call
    sends (it sends none when the request cannot be built from the URL). *)
Theorem timeout_10s_wraps :
  requestContext 10000000000 = WithTimeout (-8446744073709551616) /\
  forall (RR : Type) (NewRR : string -> result RR)
         (json_Decode : string -> result Response)
         (url_error : string -> option string)
         (http_Do : Trace RR -> Request -> result string)
         (upstream name : string) (tr : Trace RR),
    http_requests
      (events_of
         (DoHQuery RR NewRR json_Decode url_error http_Do 10000000000 upstream
            name dns.TypeA) tr)
    = match url_error upstream with
      | Some _ => []
      | None =>
          [mkRequest (WithTimeout (-8446744073709551616)) "GET" upstream
             [("Accept", "application/dns-json")]
             [("name", name); ("type", "A")]]
      end.
Proof.
  split; [reflexivity|]. intros.
  apply (DoHQuery_request RR NewRR json_Decode url_error http_Do 10000000000
           upstream name dns.TypeA "A" tr).
  reflexivity.
Qed.

(** * The properties at work in the small world *)

(** The first example of the specification: status 0 and the answer
    example.com. / type 1 / TTL 300 / 93.184.216.34 give the one record of
    the line "example.com. 300 IN A 93.184.216.34". *)
Example DoHQuery_example_com :
  fst (demo.DoHQuery 10 demo.one "example.com." dns.TypeA [])
    = Ok ["example.com. 300 IN A 93.184.216.34"%string].
Proof. reflexivity. Qed.

(** An answer of a type without mnemonic (46, RRSIG) fails the call, the
    record before it is not returned. *)
Example answersLoop_odd :
  fromEnvelope demo.RR demo.NewRR
    (demo.envelope 0 [demo.example_com; mkAnswer "example.com." 46 300 "sig"])
  = Err "Unsupported type 46".
Proof. reflexivity. Qed.

Example handle_fallback :
  written (events_of (demo.handleDnsRequest 10 [demo.down; demo.one; demo.two]
                        demo.query) [])
  = [msg.set_Answer (newReply demo.RR demo.query)
       ["example.com. 300 IN A 93.184.216.34"%string]].
Proof. reflexivity. Qed.

(** The errors of the upstreams go to the log, not into the messages. *)
Example handle_all_failed_log :
  logged (events_of (demo.handleDnsRequest 10 [demo.down; demo.servfail]
                       demo.query) [])
  = ["https://down.example/dns-query DOH Query Failed: connection refused";
     "https://servfail.example/dns-query DOH Query Failed: DOH failed response code 2"]%string.
Proof. reflexivity. Qed.

(** An upstream whose URL does not parse fails when the request is built:
    nothing is sent for it, and the next upstream is tried. *)
Example handle_bad_url :
  http_requests (events_of (demo.handleDnsRequest 10 ["://bad"%string; demo.one]
                              demo.query) [])
  = [mkRequest (requestContext 10) "GET" demo.one
       [("Accept", "application/dns-json")]
       [("name", "example.com."); ("type", "A")]] /\
  logged (events_of (demo.handleDnsRequest 10 ["://bad"%string; demo.one]
                       demo.query) [])
  = ["://bad DOH Query Failed: missing protocol scheme"%string].
Proof. split; reflexivity. Qed.

Lemma typeToString_table_witness :
  In 28 supported /\ (exists s, typeToString 28 = Ok s) /\
  ~ In 65 supported /\ typeToString 65 = Err ("Unsupported type " ++ fmt_d 65).
Proof.
  assert (H1 : In 28 supported) by (simpl; tauto).
  assert (H2 : ~ In 65 supported)
    by (simpl; intros H; repeat (destruct H as [H|H]; [discriminate H|]);
        exact H).
  split; [exact H1|]. split.
  - exact (proj1 (proj2 typeToString_table) 28 H1).
  - split; [exact H2|].
    exact (proj1 (proj2 (proj2 (proj2 typeToString_table))) 65 H2).
Defined.

Lemma first_question_first_success_witness :
  msg.Opcode demo.query = dns.OpcodeQuery /\
  hd_error (msg.Question demo.query) = Some (demo.question "example.com." 1) /\
  let ups := [demo.down; demo.one; demo.two] in
  let new := events_of (demo.handleDnsRequest 10 ups demo.query) [] in
  let atts := map (attempt (demo.question "example.com." 1)) ups in
  snd (demo.handleDnsRequest 10 ups demo.query []) = [] ++ new /\
  ((exists rs m,
      stops_at_success atts (doh_calls new) rs /\
      written new = [m] /\
      msg.Id m = msg.Id demo.query /\ msg.Rcode m = dns.RcodeSuccess /\
      msg.Question m = [demo.question "example.com." 1] /\
      msg.Answer m = rs) \/
   all_failed atts (doh_calls new)).
Proof.
  assert (H1 : msg.Opcode demo.query = dns.OpcodeQuery) by reflexivity.
  assert (H2 : hd_error (msg.Question demo.query)
               = Some (demo.question "example.com." 1)) by reflexivity.
  split; [exact H1|]. split; [exact H2|].
  exact (proj2 (first_question_first_success demo.RR demo.NewRR
                  demo.json_Decode demo.url_error demo.http_Do 10
                  [demo.down; demo.one; demo.two]
                  demo.query [] (demo.question "example.com." 1) H1 H2)).
Defined.

(** C1, as the claim has it: a standard query asks for a type without
    mnemonic, then for an address. The one upstream fails on the first
    question and would answer the second, on any trace; the handler makes
    the one call, does not go on to the second question, and writes the
    SERVFAIL. The calls are not those of the questions of the request gone
    through in order. *)
Lemma second_question_not_tried :
  msg.Opcode demo.srv_then_a = dns.OpcodeQuery /\
  msg.Question demo.srv_then_a
  = [demo.question "_sip._tcp.example.com." 33;
     demo.question "example.com." 1] /\
  (forall tr,
     fst (demo.DoHQuery 10 demo.one "example.com." 1 tr)
     = Ok ["example.com. 300 IN A 93.184.216.34"%string]) /\
  doh_calls (events_of (demo.handleDnsRequest 10 [demo.one] demo.srv_then_a)
               [])
  = [((demo.one, "_sip._tcp.example.com."%string, 33),
      Err "Unsupported type 33")] /\
  written (events_of (demo.handleDnsRequest 10 [demo.one] demo.srv_then_a) [])
  = [failedReply demo.RR demo.srv_then_a; newReply demo.RR demo.srv_then_a] /\
  ~ (exists o,
       first_success
         (attempts [demo.one] (msg.Question demo.srv_then_a))
         (doh_calls
            (events_of (demo.handleDnsRequest 10 [demo.one] demo.srv_then_a)
               []))
         o).
Proof.
  split; [reflexivity|]. split; [reflexivity|].
  split; [intros tr; reflexivity|].
  split; [reflexivity|]. split; [reflexivity|].
  intros [[rs|] H].
  - destruct H as (fl & a & rest & Hc & _ & _). vm_compute in Hc.
    destruct fl as [|c [|c' fl]]; simpl in Hc; discriminate Hc.
  - destruct H as [_ Ha]. vm_compute in Ha. discriminate Ha.
Qed.

Lemma DoHQuery_converts_answers_witness :
  typeToString dns.TypeA = Ok "A" /\
  fst (demo.httpGet (requestContext 10) demo.two
         [("name", "example.com."); ("type", TrimSpace "A")] []) = Ok "two" /\
  demo.json_Decode "two" = Ok demo.with_cname /\
  Status demo.with_cname = 0 /\
  (forall rrs,
     fst (demo.DoHQuery 10 demo.two "example.com." dns.TypeA []) = Ok rrs <->
     Forall2 (parsed_from demo.NewRR) (r_Answer demo.with_cname) rrs) /\
  (forall a, In a (r_Answer demo.with_cname) -> unconvertible demo.NewRR a ->
     exists e, fst (demo.DoHQuery 10 demo.two "example.com." dns.TypeA [])
               = Err e).
Proof.
  split; [reflexivity|]. split; [reflexivity|]. split; [reflexivity|].
  split; [reflexivity|].
  exact (DoHQuery_converts_answers demo.RR demo.NewRR demo.json_Decode demo.url_error
           demo.http_Do 10 demo.two "example.com." dns.TypeA "A" [] "two"
           demo.with_cname eq_refl eq_refl eq_refl eq_refl).
Defined.

Lemma DoHQuery_rejects_status_witness :
  typeToString dns.TypeA = Ok "A" /\
  fst (demo.httpGet (requestContext 10) demo.servfail
         [("name", "example.com."); ("type", TrimSpace "A")] [])
    = Ok "servfail" /\
  demo.json_Decode "servfail" = Ok (demo.envelope 2 [demo.example_com]) /\
  Status (demo.envelope 2 [demo.example_com]) <> 0 /\
  fst (demo.DoHQuery 10 demo.servfail "example.com." dns.TypeA [])
    = Err "DOH failed response code 2".
Proof.
  assert (Hs : Status (demo.envelope 2 [demo.example_com]) <> 0)
    by discriminate.
  split; [reflexivity|]. split; [reflexivity|]. split; [reflexivity|].
  split; [exact Hs|].
  exact (DoHQuery_rejects_status demo.RR demo.NewRR demo.json_Decode demo.url_error
           demo.http_Do 10 demo.servfail "example.com." dns.TypeA "A" []
           "servfail" (demo.envelope 2 [demo.example_com])
           eq_refl eq_refl eq_refl Hs).
Defined.

Lemma no_question_fails_witness :
  msg.Question demo.no_question = [] /\
  let new := events_of (demo.handleDnsRequest 10 [demo.one] demo.no_question)
               [] in
  snd (demo.handleDnsRequest 10 [demo.one] demo.no_question []) = [] ++ new /\
  new = [EvWrite (failedReply demo.RR demo.no_question)] /\
  msg.Rcode (failedReply demo.RR demo.no_question) = dns.RcodeServerFailure /\
  msg.Id (failedReply demo.RR demo.no_question) = msg.Id demo.no_question /\
  doh_calls new = [] /\ http_requests new = [].
Proof.
  split; [reflexivity|].
  exact (no_question_fails demo.RR demo.NewRR demo.json_Decode demo.url_error demo.http_Do
           10 [demo.one] demo.no_question [] eq_refl).
Defined.

(** C3, as the claim has it: a NOTIFY request with a question is answered,
    and by a reply whose rcode is success; no SERVFAIL is written. *)
Lemma notify_gets_success_reply :
  msg.Opcode demo.notify <> dns.OpcodeQuery /\
  written (events_of (demo.handleDnsRequest 10 [demo.one] demo.notify) [])
    = [newReply demo.RR demo.notify] /\
  msg.Rcode (newReply demo.RR demo.notify) = dns.RcodeSuccess /\
  ~ (exists m,
       In m (written
               (events_of (demo.handleDnsRequest 10 [demo.one] demo.notify) []))
       /\ msg.Rcode m = dns.RcodeServerFailure).
Proof.
  split; [discriminate|]. split; [reflexivity|]. split; [reflexivity|].
  intros (m & Hin & Hr). vm_compute in Hin.
  destruct Hin as [<-|[]]. discriminate Hr.
Qed.

Lemma other_opcode_plain_reply_witness :
  msg.Opcode demo.notify <> dns.OpcodeQuery /\
  msg.Question demo.notify <> [] /\
  events_of (demo.handleDnsRequest 10 [demo.one] demo.notify) []
    = [EvWrite (newReply demo.RR demo.notify)] /\
  msg.Rcode (newReply demo.RR demo.notify) = dns.RcodeSuccess /\
  msg.Answer (newReply demo.RR demo.notify) = [] /\
  msg.Id (newReply demo.RR demo.notify) = msg.Id demo.notify.
Proof.
  assert (H1 : msg.Opcode demo.notify <> dns.OpcodeQuery) by discriminate.
  assert (H2 : msg.Question demo.notify <> []) by discriminate.
  split; [exact H1|]. split; [exact H2|].
  exact (proj1 (proj2 (proj2 (proj2
           (other_opcode_plain_reply demo.RR demo.NewRR demo.json_Decode demo.url_error
              demo.http_Do 10 [demo.one] demo.notify [] H1)))) H2).
Defined.

Lemma all_failed_servfail_witness :
  msg.Opcode demo.query = dns.OpcodeQuery /\
  msg.Question demo.query <> [] /\
  Forall failed
    (doh_calls (events_of (demo.handleDnsRequest 10 [demo.down; demo.servfail]
                             demo.query) [])) /\
  (exists rest,
     written (events_of (demo.handleDnsRequest 10 [demo.down; demo.servfail]
                           demo.query) [])
     = failedReply demo.RR demo.query :: rest) /\
  msg.Rcode (failedReply demo.RR demo.query) = dns.RcodeServerFailure /\
  msg.Id (failedReply demo.RR demo.query) = msg.Id demo.query.
Proof.
  assert (H1 : msg.Opcode demo.query = dns.OpcodeQuery) by reflexivity.
  assert (H2 : msg.Question demo.query <> []) by discriminate.
  assert (H3 : Forall failed
    (doh_calls (events_of (demo.handleDnsRequest 10 [demo.down; demo.servfail]
                             demo.query) [])))
    by (vm_compute; repeat constructor).
  split; [exact H1|]. split; [exact H2|]. split; [exact H3|].
  pose proof (all_failed_servfail demo.RR demo.NewRR demo.json_Decode demo.url_error
                demo.http_Do 10 [demo.down; demo.servfail] demo.query []
                H1 H2 H3) as (Hw & Hr & Hi & _).
  split; [exact Hw|]. split; [exact Hr|exact Hi].
Defined.

Lemma all_failed_two_writes_witness :
  msg.Opcode demo.query = dns.OpcodeQuery /\
  msg.Question demo.query <> [] /\
  Forall failed
    (doh_calls (events_of (demo.handleDnsRequest 10 [demo.down; demo.servfail]
                             demo.query) [])) /\
  written (events_of (demo.handleDnsRequest 10 [demo.down; demo.servfail]
                        demo.query) [])
    = [failedReply demo.RR demo.query; newReply demo.RR demo.query].
Proof.
  assert (H1 : msg.Opcode demo.query = dns.OpcodeQuery) by reflexivity.
  assert (H2 : msg.Question demo.query <> []) by discriminate.
  assert (H3 : Forall failed
    (doh_calls (events_of (demo.handleDnsRequest 10 [demo.down; demo.servfail]
                             demo.query) [])))
    by (vm_compute; repeat constructor).
  split; [exact H1|]. split; [exact H2|]. split; [exact H3|].
  exact (proj1 (proj2
           (all_failed_two_writes demo.RR demo.NewRR demo.json_Decode demo.url_error
              demo.http_Do 10 [demo.down; demo.servfail] demo.query []
              H1 H2 H3))).
Defined.

Lemma empty_answer_is_success_witness :
  fst (demo.DoHQuery 10 demo.empty "example.com." dns.TypeA []) = Ok [] /\
  msg.Opcode demo.query = dns.OpcodeQuery /\
  msg.Question demo.query <> [] /\
  In ((demo.empty, "example.com."%string, 1), Ok [])
     (doh_calls (events_of (demo.handleDnsRequest 10
                              [demo.down; demo.empty; demo.one] demo.query)
                   [])) /\
  written (events_of (demo.handleDnsRequest 10
                        [demo.down; demo.empty; demo.one] demo.query) [])
    = [newReply demo.RR demo.query].
Proof.
  assert (H1 : msg.Opcode demo.query = dns.OpcodeQuery) by reflexivity.
  assert (H2 : msg.Question demo.query <> []) by discriminate.
  assert (H3 : In ((demo.empty, "example.com."%string, 1), Ok [])
     (doh_calls (events_of (demo.handleDnsRequest 10
                              [demo.down; demo.empty; demo.one] demo.query)
                   [])))
    by (vm_compute; right; left; reflexivity).
  split.
  - exact (proj1 (empty_answer_is_success demo.RR demo.NewRR demo.json_Decode demo.url_error
                    demo.http_Do 10 [demo.down; demo.empty; demo.one])
             demo.empty "example.com."%string dns.TypeA "A"%string []
             "empty"%string (demo.envelope 0 [])
             eq_refl eq_refl eq_refl eq_refl eq_refl).
  - split; [exact H1|]. split; [exact H2|]. split; [exact H3|].
    exact (proj1 (proj2
             (proj2 (empty_answer_is_success demo.RR demo.NewRR
                       demo.json_Decode demo.url_error demo.http_Do 10
                       [demo.down; demo.empty; demo.one])
                demo.query [] _ H1 H2 H3))).
Defined.

(** * More of the code *)

(** ** The flags *)

(** X1: the values of the [-upstream] flags are collected in the order of
    the command line, after what was there, and [Set] never refuses one;
    the check of [main] passes exactly when there is at least one. *)
Theorem upstream_flags_in_order (i : flagStringList) (values : list string) :
  parseUpstreamFlags i values = Ok (i ++ values) /\
  (requireUpstream (i ++ values) = Ok tt <-> i ++ values <> []) /\
  (requireUpstream [] = Err "-upstream is required").
Proof.
  split; [|split; [|reflexivity]].
  - revert i. induction values as [|v values IH]; intros i; simpl.
    + rewrite app_nil_r. reflexivity.
    + rewrite IH, <- app_assoc. reflexivity.
  - unfold requireUpstream. destruct (i ++ values); simpl; split;
      congruence.
Qed.

(** ** The numbers in the error messages *)

Lemma to_int_not_nil (z : Z) : Z.to_int z <> Decimal.Pos Decimal.Nil /\
                               Z.to_int z <> Decimal.Neg Decimal.Nil.
Proof.
  destruct z as [|p|p]; simpl; split; try discriminate;
    intros H; injection H as H;
    exact (DecimalPos.Unsigned.to_uint_nonnil p H).
Qed.

(** [%d] writes a number that reads back as itself. *)
Lemma fmt_d_reads_back (z : Z) :
  option_map Z.of_int (NilZero.int_of_string (fmt_d z)) = Some z.
Proof.
  unfold fmt_d. destruct (to_int_not_nil z) as [Hp Hn].
  rewrite NilZero.isi by assumption. simpl.
  rewrite DecimalZ.of_to. reflexivity.
Qed.

Lemma fmt_d_inj (a b : Z) : fmt_d a = fmt_d b -> a = b.
Proof.
  intros H. pose proof (fmt_d_reads_back a) as Ha.
  rewrite H, fmt_d_reads_back in Ha. congruence.
Qed.

Lemma append_inj_l (p a b : string) : (p ++ a)%string = (p ++ b)%string -> a = b.
Proof.
  induction p as [|c p IH]; simpl; intros H; [exact H|].
  injection H as H. exact (IH H).
Qed.

Lemma typeToString_err (c : Z) (e : string) :
  typeToString c = Err e ->
  ~ In c supported /\ e = ("Unsupported type " ++ fmt_d c)%string.
Proof.
  intros H.
  assert (Hn : ~ In c supported).
  { intros Hin. destruct (typeToString_supported c Hin) as [s Hs]. congruence. }
  split; [exact Hn|].
  rewrite (typeToString_unsupported c Hn) in H. congruence.
Qed.

(** X2: the type mapper never gives the same result for two codes, whether
    it succeeds or fails: the mnemonic or the error message tells the code. *)
Theorem typeToString_injective (c1 c2 : Z) :
  typeToString c1 = typeToString c2 -> c1 = c2.
Proof.
  intros H. destruct (typeToString c1) as [s|e] eqn:E1.
  - symmetry in H. exact (typeToString_inj c1 c2 s E1 H).
  - symmetry in H. apply typeToString_err in E1. apply typeToString_err in H.
    destruct E1 as [_ E1], H as [_ H]. rewrite E1 in H.
    apply append_inj_l in H. exact (fmt_d_inj _ _ H).
Qed.

Lemma typeToString_injective_witness :
  typeToString 15 = typeToString 15 /\ 15 = 15.
Proof.
  split; [reflexivity|].
  exact (typeToString_injective 15 15 eq_refl).
Defined.

(** The mnemonics have no white space around them: [strings.TrimSpace]
    leaves them as they are. *)
Lemma TrimSpace_mnemonic (c : Z) (t : string) :
  typeToString c = Ok t -> TrimSpace t = t.
Proof.
  intros H. pose proof (typeToString_ok_supported c t H) as Hin.
  unfold supported in Hin. simpl in Hin.
  repeat (destruct Hin as [Hin|Hin];
          [subst c; vm_compute in H; injection H as <-; reflexivity|]).
  contradiction.
Qed.

(** ** The deadline *)

(** X3: without a positive timeout the request has no deadline; with one,
    the deadline is an int64 number of nanoseconds, and it is the timeout
    counted in seconds exactly up to 9223372036, the last value whose
    product with [time.Second] fits. *)
Theorem requestContext_range (timeout : Z) :
  (timeout <= 0 -> requestContext timeout = Background) /\
  (0 < timeout ->
   exists d, requestContext timeout = WithTimeout d /\
             - 2 ^ 63 <= d < 2 ^ 63 /\
             (d = timeout * Second <-> timeout <= 9223372036)).
Proof.
  split; [apply requestContext_disabled|].
  intros H. unfold requestContext. destruct (Z.ltb_spec 0 timeout); [|lia].
  exists (mul64 timeout Second). split; [reflexivity|].
  unfold mul64, wrap64, Second.
  pose proof (Z.mod_pos_bound (timeout * 1000000000 + 2 ^ 63) (2 ^ 64)
                ltac:(lia)) as Hb.
  split; [lia|]. split.
  - intros E. lia.
  - intros Hle. rewrite Z.mod_small; lia.
Qed.

Lemma requestContext_range_witness :
  0 < 2 /\
  exists d, requestContext 2 = WithTimeout d /\
            - 2 ^ 63 <= d < 2 ^ 63 /\
            (d = 2 * Second <-> 2 <= 9223372036).
Proof.
  assert (H : 0 < 2) by lia.
  split; [exact H|].
  exact (proj2 (requestContext_range 2) H).
Defined.

(** ** More of the DoH client *)

Section Client.
Variable RR : Type.
Variable NewRR : string -> result RR.
Variable json_Decode : string -> result Response.
Variable url_error : string -> option string.
Variable http_Do : Trace RR -> Request -> result string.
Variable timeout : Z.

Local Abbreviation DoHQuery' := (DoHQuery RR NewRR json_Decode url_error http_Do timeout).
Local Abbreviation httpGet' := (httpGet RR url_error http_Do).
Local Abbreviation answersLoop' := (answersLoop RR NewRR).

(** The request of a call, for the mnemonic [t]. *)
Local Abbreviation request_of upstream name t :=
  (mkRequest (requestContext timeout) "GET" upstream
     [("Accept", "application/dns-json")]
     [("name", name); ("type", TrimSpace t)]).

(** What a call adds to the trace: the HTTP exchange, if the type of the
    question has a mnemonic and the request can be built, then its own
    record. *)
Lemma DoHQuery_events (upstream name : string) (dnsType : Z) (tr : Trace RR) :
  exists r,
    DoHQuery' upstream name dnsType tr
    = (r, tr ++ match typeToString dnsType, url_error upstream with
                | Ok t, None =>
                    [EvHTTP (request_of upstream name t)
                       (http_Do tr (request_of upstream name t))]
                | _, _ => []
                end ++ [EvDoH upstream name dnsType r]).
Proof.
  unfold DoHQuery, DoHQuery_body, bind, emit, ret, httpGet.
  destruct (typeToString dnsType) as [t|e].
  - destruct (url_error upstream) as [err|]; [eexists; reflexivity|].
    destruct (http_Do tr _) as [body|e].
    + destruct (json_Decode body) as [rr|e]; eexists;
        rewrite <- app_assoc; reflexivity.
    + eexists. rewrite <- app_assoc. reflexivity.
  - eexists. reflexivity.
Qed.

Lemma DoHQuery_unsupported_run (upstream name : string) (dnsType : Z)
  (tr : Trace RR) :
  ~ In dnsType supported ->
  DoHQuery' upstream name dnsType tr
  = (Err ("Unsupported type " ++ fmt_d dnsType),
     tr ++ [EvDoH upstream name dnsType
              (Err ("Unsupported type " ++ fmt_d dnsType))]).
Proof.
  intros Hn. unfold DoHQuery, DoHQuery_body, bind, emit, ret.
  rewrite (typeToString_unsupported dnsType Hn). reflexivity.
Qed.

(** X4: a question whose type has no mnemonic fails the call with the
    error that names the type, before anything is sent: the call leaves
    its record in the trace and no HTTP request. *)
Theorem DoHQuery_unsupported_type (upstream name : string) (dnsType : Z)
  (tr : Trace RR) :
  ~ In dnsType supported ->
  let e := ("Unsupported type " ++ fmt_d dnsType)%string in
  DoHQuery' upstream name dnsType tr
    = (Err e, tr ++ [EvDoH upstream name dnsType (Err e)]) /\
  http_requests (events_of (DoHQuery' upstream name dnsType) tr) = [].
Proof.
  intros Hn e.
  pose proof (DoHQuery_unsupported_run upstream name dnsType tr Hn) as H.
  split; [exact H|]. rewrite (events_of_ext _ _ _ _ _ H). reflexivity.
Qed.

(** X5: the ways a call fails, and no other: the type of the question has
    no mnemonic, the request cannot be built, the HTTP exchange fails, the
    body does not decode, the status is not 0, or an answer entry cannot be
    converted. *)
Theorem DoHQuery_fails_iff (upstream name : string) (dnsType : Z)
  (tr : Trace RR) :
  is_err (fst (DoHQuery' upstream name dnsType tr)) = true <->
  match typeToString dnsType with
  | Err _ => True
  | Ok t =>
      match url_error upstream with
      | Some _ => True
      | None =>
          match http_Do tr (request_of upstream name t) with
          | Err _ => True
          | Ok body =>
              match json_Decode body with
              | Err _ => True
              | Ok rr =>
                  Status rr <> 0 \/
                  exists a, In a (r_Answer rr) /\ unconvertible NewRR a
              end
          end
      end
  end.
Proof.
  unfold DoHQuery, DoHQuery_body, bind, emit, ret, httpGet.
  destruct (typeToString dnsType) as [t|e]; [|simpl; tauto].
  destruct (url_error upstream) as [err|]; [simpl; tauto|].
  destruct (http_Do tr _) as [body|e]; [|simpl; tauto].
  destruct (json_Decode body) as [rr|e]; [|simpl; tauto].
  simpl. unfold fromEnvelope.
  destruct (Z.eqb_spec (Status rr) 0) as [E|E]; simpl;
    [|split; [left; exact E|reflexivity]].
  split.
  - intros H. right.
    assert (G : forall answers acc,
               is_err (answersLoop' acc answers) = true ->
               exists a, In a answers /\ unconvertible NewRR a).
    { induction answers as [|a answers IH]; intros acc Ha; simpl in Ha;
        [discriminate|].
      destruct (typeToString (a_Type a)) as [t'|e'] eqn:Et.
      - destruct (NewRR (rrText a t')) as [x|e'] eqn:Ex.
        + destruct (IH _ Ha) as (b & Hb & Hu). exists b. split; [right|]; auto.
        + exists a. split; [left; reflexivity|].
          unfold unconvertible. rewrite Et. unfold rrText in Ex.
          rewrite Ex. reflexivity.
      - exists a. split; [left; reflexivity|].
        unfold unconvertible. rewrite Et. exact I. }
    exact (G _ _ H).
  - intros [H|(a & Hin & Hu)]; [contradiction|].
    destruct (answersLoop_err RR NewRR (r_Answer rr) [] a Hin Hu) as [e He].
    rewrite He. reflexivity.
Qed.

(** The loop over the answers goes on from what it has: the records of a
    list in two parts are those of the first part, then those of the
    second from there. *)
Lemma answersLoop_app (a1 a2 : list Answer) (acc : list RR) :
  answersLoop' acc (a1 ++ a2)
  = match answersLoop' acc a1 with
    | Ok rrs => answersLoop' rrs a2
    | Err e => Err e
    end.
Proof.
  revert acc. induction a1 as [|a a1 IH]; intros acc; simpl; [reflexivity|].
  destruct (typeToString (a_Type a)) as [t|e]; [|reflexivity].
  destruct (NewRR (rrText a t)) as [x|e]; [|reflexivity].
  apply IH.
Qed.

Lemma answersLoop_converted (good : list Answer) (rs acc : list RR) :
  Forall2 (parsed_from NewRR) good rs ->
  answersLoop' acc good = Ok (acc ++ rs).
Proof.
  intros H. apply answersLoop_ok. exists rs. split; [reflexivity|exact H].
Qed.

(** X6: the error of a call that fails on its answers is that of the first
    entry, in the order of the list, that cannot be converted: the error of
    the type mapper, that names the type, or the error of the parser;
    what comes after that entry is not looked at. *)
Theorem DoHQuery_first_bad_answer (upstream name : string) (dnsType : Z)
  (t : string) (tr : Trace RR) (body : string) (rr : Response)
  (good rest : list Answer) (bad : Answer) (rs : list RR) :
  typeToString dnsType = Ok t ->
  fst (httpGet' (requestContext timeout) upstream
         [("name", name); ("type", TrimSpace t)] tr) = Ok body ->
  json_Decode body = Ok rr ->
  Status rr = 0 ->
  r_Answer rr = good ++ bad :: rest ->
  Forall2 (parsed_from NewRR) good rs ->
  fst (DoHQuery' upstream name dnsType tr)
  = match typeToString (a_Type bad) with
    | Err _ => Err ("Unsupported type " ++ fmt_d (a_Type bad))
    | Ok mn =>
        match NewRR (a_Name bad ++ " " ++ fmt_d (a_TTL bad) ++ " IN " ++ mn
                       ++ " " ++ a_Data bad)%string with
        | Err e => Err e
        | Ok x => answersLoop' (rs ++ [x]) rest
        end
    end.
Proof.
  intros Ht Hb Hj Hs Ha Hg.
  rewrite (DoHQuery_decoded RR NewRR json_Decode url_error http_Do timeout
             _ _ _ _ _ _ _ Ht Hb Hj).
  unfold fromEnvelope. rewrite Hs, Ha. simpl.
  rewrite answersLoop_app, (answersLoop_converted good rs [] Hg). simpl.
  destruct (typeToString (a_Type bad)) as [mn|e] eqn:Et; [reflexivity|].
  apply typeToString_err in Et. destruct Et as [_ ->]. reflexivity.
Qed.

(** X7: for a question whose type has a mnemonic, a call whose request
    can be built sends one request: a GET to the upstream with the Accept
    header of the JSON API, the deadline of the flag, and two parameters:
    the name of the question and the mnemonic of its type, just as the type
    mapper gives it. A call whose request cannot be built sends nothing
    and fails with the error of the building. *)
Theorem DoHQuery_sends (upstream name : string) (dnsType : Z) (t : string)
  (tr : Trace RR) :
  typeToString dnsType = Ok t ->
  (url_error upstream = None ->
   http_requests (events_of (DoHQuery' upstream name dnsType) tr)
   = [mkRequest (requestContext timeout) "GET" upstream
        [("Accept", "application/dns-json")]
        [("name", name); ("type", t)]]) /\
  (forall err, url_error upstream = Some err ->
   http_requests (events_of (DoHQuery' upstream name dnsType) tr) = [] /\
   fst (DoHQuery' upstream name dnsType tr) = Err err).
Proof.
  intros Ht.
  pose proof (DoHQuery_request RR NewRR json_Decode url_error http_Do timeout
                upstream name dnsType t tr Ht) as Hr.
  split.
  - intros Hu. rewrite Hu in Hr. rewrite Hr.
    rewrite (TrimSpace_mnemonic dnsType t Ht). reflexivity.
  - intros err Hu. rewrite Hu in Hr. split; [exact Hr|].
    unfold DoHQuery, DoHQuery_body, bind, emit, ret, httpGet.
    rewrite Ht, Hu. reflexivity.
Qed.

(** X8: when the call succeeds on a decoded envelope, there are as many
    records as answer entries: none is dropped, none is added. *)
Theorem DoHQuery_as_many_records (upstream name : string) (dnsType : Z)
  (t : string) (tr : Trace RR) (body : string) (rr : Response)
  (rrs : list RR) :
  typeToString dnsType = Ok t ->
  fst (httpGet' (requestContext timeout) upstream
         [("name", name); ("type", TrimSpace t)] tr) = Ok body ->
  json_Decode body = Ok rr ->
  fst (DoHQuery' upstream name dnsType tr) = Ok rrs ->
  Status rr = 0 /\ List.length rrs = List.length (r_Answer rr).
Proof.
  intros Ht Hb Hj.
  rewrite (DoHQuery_decoded RR NewRR json_Decode url_error http_Do timeout
             _ _ _ _ _ _ _ Ht Hb Hj).
  unfold fromEnvelope. destruct (Z.eqb_spec (Status rr) 0) as [E|E]; simpl;
    [|discriminate].
  intros H. split; [exact E|].
  apply answersLoop_ok in H. destruct H as (rs & -> & HF). simpl.
  symmetry. exact (Forall2_length HF).
Qed.

(** X9: the error of a rejected envelope names its status and no other. *)
Theorem DoHQuery_status_in_error (upstream name : string) (dnsType : Z)
  (t : string) (tr : Trace RR) (body : string) (rr : Response) (s : Z) :
  typeToString dnsType = Ok t ->
  fst (httpGet' (requestContext timeout) upstream
         [("name", name); ("type", TrimSpace t)] tr) = Ok body ->
  json_Decode body = Ok rr ->
  Status rr <> 0 ->
  fst (DoHQuery' upstream name dnsType tr)
    = Err ("DOH failed response code " ++ fmt_d s) ->
  s = Status rr.
Proof.
  intros Ht Hb Hj Hs.
  rewrite (DoHQuery_decoded RR NewRR json_Decode url_error http_Do timeout
             _ _ _ _ _ _ _ Ht Hb Hj).
  unfold fromEnvelope. destruct (Z.eqb_spec (Status rr) 0); [contradiction|].
  simpl. intros H. injection H as H.
  symmetry. exact (fmt_d_inj _ _ H).
Qed.

End Client.

(** ** More of the handler *)

Section Handler.
Variable RR : Type.
Variable NewRR : string -> result RR.
Variable json_Decode : string -> result Response.
Variable url_error : string -> option string.
Variable http_Do : Trace RR -> Request -> result string.
Variable timeout : Z.
Variable upstreams : list string.

Local Abbreviation DoHQuery' := (DoHQuery RR NewRR json_Decode url_error http_Do timeout).
Local Abbreviation upstreamLoop' :=
  (upstreamLoop RR NewRR json_Decode url_error http_Do timeout).
Local Abbreviation questionLoop' :=
  (questionLoop RR NewRR json_Decode url_error http_Do timeout upstreams).
Local Abbreviation parseQuery' :=
  (parseQuery RR NewRR json_Decode url_error http_Do timeout upstreams).
Local Abbreviation handleDnsRequest' :=
  (handleDnsRequest RR NewRR json_Decode url_error http_Do timeout upstreams).

(** The three ways through the handler. *)
Lemma handle_cases (req : msg.Msg RR) (tr : Trace RR) :
  exists new,
    handleDnsRequest' req tr = (tt, tr ++ new) /\
    ((msg.Question req = [] /\ new = [EvWrite (failedReply RR req)]) \/
     (msg.Question req <> [] /\ msg.Opcode req <> dns.OpcodeQuery /\
      new = [EvWrite (newReply RR req)]) \/
     (msg.Question req <> [] /\ msg.Opcode req = dns.OpcodeQuery /\
      exists o,
        first_success (attempts upstreams (msg.Question (newReply RR req)))
          (doh_calls new) o /\
        written new =
          match o with
          | Some rs => [msg.set_Answer (newReply RR req) rs]
          | None => [failedReply RR req; newReply RR req]
          end)).
Proof.
  destruct (msg.Question req) as [|q0 qs] eqn:Eq.
  - exists [EvWrite (failedReply RR req)]. split; [|left; auto].
    unfold handleDnsRequest. rewrite Eq. reflexivity.
  - destruct (Z.eq_dec (msg.Opcode req) dns.OpcodeQuery) as [Hop|Hop].
    + assert (Hq : msg.Question req <> []) by (rewrite Eq; discriminate).
      destruct (handle_query_spec RR NewRR json_Decode url_error http_Do timeout
                  upstreams req tr Hop Hq) as (new & o & Hrun & Hsel & Hw).
      exists new. split; [exact Hrun|]. right. right.
      split; [discriminate|]. split; [exact Hop|]. exists o. auto.
    + exists [EvWrite (newReply RR req)]. split.
      * unfold handleDnsRequest. rewrite Eq. cbn [List.length Nat.eqb].
        destruct (Z.eqb_spec (msg.Opcode req) dns.OpcodeQuery);
          [contradiction|reflexivity].
      * right. left. split; [discriminate|]. auto.
Qed.

Ltac fields_of_reply :=
  repeat split;
  first [reflexivity | left; reflexivity | right; reflexivity].

(** X10: every request is answered, with one message or two, never more;
    each is a response with the id and the opcode of the request, with
    compression off, and its rcode is success or SERVFAIL. *)
Theorem handler_always_answers (req : msg.Msg RR) (tr : Trace RR) :
  let ws := written (events_of (handleDnsRequest' req) tr) in
  (1 <= List.length ws <= 2)%nat /\
  Forall (fun m => msg.Id m = msg.Id req /\ msg.Response m = true /\
                   msg.Opcode m = msg.Opcode req /\ msg.Compress m = false /\
                   (msg.Rcode m = dns.RcodeSuccess \/
                    msg.Rcode m = dns.RcodeServerFailure)) ws.
Proof.
  destruct (handle_cases req tr) as (new & Hrun & Hc).
  cbv zeta. rewrite (events_of_ext _ _ _ _ _ Hrun).
  destruct Hc as [[_ ->]|[(_ & _ & ->)|(_ & _ & o & _ & Hw)]]; simpl.
  - split; [lia|]. repeat (constructor; [fields_of_reply|]). constructor.
  - split; [lia|]. repeat (constructor; [fields_of_reply|]). constructor.
  - rewrite Hw. destruct o as [rs|]; simpl; (split; [lia|]);
      repeat (constructor; [fields_of_reply|]); constructor.
Qed.

(** X11: the client gets a SERVFAIL exactly when the request has no
    question, or is a standard query for which no call of [DoHQuery]
    returned without error. *)
Theorem servfail_iff (req : msg.Msg RR) (tr : Trace RR) :
  let new := events_of (handleDnsRequest' req) tr in
  Exists (fun m => msg.Rcode m = dns.RcodeServerFailure) (written new) <->
  msg.Question req = [] \/
  (msg.Opcode req = dns.OpcodeQuery /\ Forall failed (doh_calls new)).
Proof.
  destruct (handle_cases req tr) as (new & Hrun & Hc).
  cbv zeta. rewrite (events_of_ext _ _ _ _ _ Hrun).
  destruct Hc as [[Hq ->]|[(Hq & Hop & ->)|(Hq & Hop & o & Hsel & Hw)]].
  - simpl. split; [auto|]. intros _. left. reflexivity.
  - simpl. split.
    + intros H. inversion H as [? ? E|? ? E]; [discriminate E|inversion E].
    + intros [H|[H _]]; contradiction.
  - rewrite Hw. destruct o as [rs|]; simpl.
    + split.
      * intros H. inversion H as [? ? E|? ? E]; [discriminate E|inversion E].
      * intros [H|[_ H]]; [contradiction|]. exfalso.
        destruct Hsel as (fl & a & rest & Hcalls & _ & _).
        apply (failed_not_ok RR _ a rs H). rewrite Hcalls.
        apply in_or_app. right. left. reflexivity.
    + split.
      * intros _. right. split; [exact Hop|]. exact (proj1 Hsel).
      * intros _. left. reflexivity.
Qed.

Lemma attempts_length (qs : list msg.DnsQuestion) :
  List.length (attempts upstreams qs)
  = (List.length qs * List.length upstreams)%nat.
Proof.
  induction qs as [|q qs IH]; simpl; [reflexivity|].
  unfold attempts in *. simpl. rewrite length_app, length_map, IH.
  reflexivity.
Qed.

Lemma first_success_prefix (atts : list (string * string * Z))
  (calls : list (Call RR)) (o : option (list RR)) :
  first_success atts calls o -> exists rest, atts = map fst calls ++ rest.
Proof.
  destruct o as [rs|]; simpl.
  - intros (fl & a & rest & _ & _ & H). exists rest. exact H.
  - intros [_ H]. exists []. rewrite app_nil_r. symmetry. exact H.
Qed.

(** X12: [parseQuery] makes at most one call for each question of the
    message and each upstream: the calls are the first of these attempts,
    in their order. *)
Theorem parseQuery_calls_bounded (m req : msg.Msg RR) (tr : Trace RR) :
  let calls := doh_calls (events_of (parseQuery' m req) tr) in
  (exists rest,
     attempts upstreams (msg.Question m) = map fst calls ++ rest) /\
  (List.length calls
   <= List.length (msg.Question m) * List.length upstreams)%nat.
Proof.
  destruct (parseQuery_spec RR NewRR json_Decode url_error http_Do timeout upstreams
              m req tr) as (new & o & Hsel & Hrun & _).
  assert (He : events_of (parseQuery' m req) tr = new)
    by (destruct o; exact (events_of_ext _ _ _ _ _ Hrun)).
  cbv zeta. rewrite He.
  destruct (first_success_prefix _ _ _ Hsel) as [rest Hp].
  split; [exists rest; exact Hp|].
  rewrite <- attempts_length, Hp, length_app, length_map.
  apply Nat.le_add_r.
Qed.

(** X13: a handling looks up the first question of the request only, and
    only in a standard query: every call is for that question and one of
    the upstreams, and there are no more calls than upstreams. *)
Theorem handler_first_question_only (req : msg.Msg RR) (tr : Trace RR) :
  let calls := doh_calls (events_of (handleDnsRequest' req) tr) in
  (List.length calls <= List.length upstreams)%nat /\
  forall c, In c calls ->
    msg.Opcode req = dns.OpcodeQuery /\
    exists q u,
      hd_error (msg.Question req) = Some q /\ In u upstreams /\
      fst c = (u, msg.Name q, msg.Qtype q).
Proof.
  destruct (handle_cases req tr) as (new & Hrun & Hc).
  cbv zeta. rewrite (events_of_ext _ _ _ _ _ Hrun).
  destruct Hc as [[Hq ->]|[(Hq & Hop & ->)|(Hq & Hop & o & Hsel & Hw)]].
  - simpl. split; [lia|]. intros c [].
  - simpl. split; [lia|]. intros c [].
  - destruct (first_success_prefix _ _ _ Hsel) as [rest Hp].
    destruct (msg.Question req) as [|q0 qs] eqn:Eq; [congruence|].
    assert (Ha : attempts upstreams (msg.Question (newReply RR req))
                 = map (attempt q0) upstreams).
    { unfold newReply, msg.SetReply. simpl. rewrite Eq. simpl.
      apply app_nil_r. }
    rewrite Ha in Hp. split.
    + apply (f_equal (@List.length _)) in Hp.
      rewrite length_app, !length_map in Hp. rewrite Hp.
      apply Nat.le_add_r.
    + intros c Hin. split; [exact Hop|].
      assert (Hi : In (fst c) (map (attempt q0) upstreams)).
      { rewrite Hp. apply in_or_app. left. apply in_map. exact Hin. }
      apply in_map_iff in Hi. destruct Hi as (u & Hu & Hin').
      exists q0, u. repeat split; auto.
Qed.

(** X14: when a call returns without error in a standard query, the client
    gets one message: the prepared reply, with the id of the request, rcode
    success, the first question, and as answer section the records of that
    call, in their order and nothing else. *)
Theorem success_reply (req : msg.Msg RR) (tr : Trace RR)
  (q : msg.DnsQuestion) (a : string * string * Z) (rs : list RR) :
  msg.Opcode req = dns.OpcodeQuery ->
  hd_error (msg.Question req) = Some q ->
  let new := events_of (handleDnsRequest' req) tr in
  In (a, Ok rs) (doh_calls new) ->
  exists m,
    written new = [m] /\ m = msg.set_Answer (newReply RR req) rs /\
    msg.Id m = msg.Id req /\ msg.Response m = true /\
    msg.Rcode m = dns.RcodeSuccess /\ msg.Compress m = false /\
    msg.Question m = [q] /\ msg.Answer m = rs.
Proof.
  intros Hop Hhd.
  assert (Hq : msg.Question req <> [])
    by (destruct (msg.Question req); [discriminate Hhd|discriminate]).
  destruct (handle_query_spec RR NewRR json_Decode url_error http_Do timeout upstreams
              req tr Hop Hq) as (new & o & Hrun & Hsel & Hw).
  cbv zeta. rewrite (events_of_ext _ _ _ _ _ Hrun). intros Hin.
  destruct o as [rs'|].
  - destruct Hsel as (fl & a' & rest & Hc & HF & _).
    rewrite Hc in Hin. apply in_app_or in Hin. destruct Hin as [Hin|Hin].
    + exfalso. exact (failed_not_ok RR _ _ _ HF Hin).
    + destruct Hin as [E|[]]. injection E as -> ->.
      exists (msg.set_Answer (newReply RR req) rs).
      split; [exact Hw|]. split; [reflexivity|].
      repeat (split; [reflexivity|]). split; [|reflexivity].
      simpl. destruct (msg.Question req) as [|q0 qs]; [discriminate Hhd|].
      injection Hhd as ->. reflexivity.
  - exfalso. destruct Hsel as [HF _]. exact (failed_not_ok RR _ _ _ HF Hin).
Qed.

(** X15: [parseQuery] touches the answer section only, and only by adding
    at its end: the header, the flags and the question section of the
    message stay as they were. *)
Theorem parseQuery_appends_only (m req : msg.Msg RR) (tr : Trace RR) :
  let m' := fst (parseQuery' m req tr) in
  exists extra,
    m' = msg.set_Answer m (msg.Answer m ++ extra) /\
    msg.Answer m' = msg.Answer m ++ extra /\
    msg.Id m' = msg.Id m /\ msg.Rcode m' = msg.Rcode m /\
    msg.Opcode m' = msg.Opcode m /\ msg.Question m' = msg.Question m.
Proof.
  destruct (parseQuery_spec RR NewRR json_Decode url_error http_Do timeout upstreams
              m req tr) as (new & o & _ & Hrun & _).
  cbv zeta. rewrite Hrun. destruct o as [rs|]; simpl.
  - exists rs. repeat split; reflexivity.
  - exists []. rewrite app_nil_r, set_Answer_same. repeat split; reflexivity.
Qed.

End Handler.

(** ** What holds of every trace of the handler *)

Section HandlerTrace.
Variable RR : Type.
Variable NewRR : string -> result RR.
Variable json_Decode : string -> result Response.
Variable url_error : string -> option string.
Variable http_Do : Trace RR -> Request -> result string.
Variable timeout : Z.
Variable upstreams : list string.

Local Abbreviation DoHQuery' := (DoHQuery RR NewRR json_Decode url_error http_Do timeout).
Local Abbreviation upstreamLoop' :=
  (upstreamLoop RR NewRR json_Decode url_error http_Do timeout).
Local Abbreviation questionLoop' :=
  (questionLoop RR NewRR json_Decode url_error http_Do timeout upstreams).
Local Abbreviation parseQuery' :=
  (parseQuery RR NewRR json_Decode url_error http_Do timeout upstreams).
Local Abbreviation handleDnsRequest' :=
  (handleDnsRequest RR NewRR json_Decode url_error http_Do timeout upstreams).

(** What one turn of the loop over the upstreams adds: the events of the
    call, and the line of the log if it failed. *)
Local Abbreviation turn u q tr :=
  (events_of (DoHQuery' u (msg.Name q) (msg.Qtype q)) tr
   ++ match fst (DoHQuery' u (msg.Name q) (msg.Qtype q) tr) with
      | Err err => [EvLog (u ++ " DOH Query Failed: " ++ err)%string]
      | Ok _ => []
      end).

Lemma logged_app (t1 t2 : Trace RR) :
  logged (t1 ++ t2) = logged t1 ++ logged t2.
Proof.
  induction t1 as [|e t1 IH]; simpl; [reflexivity|].
  destruct e; simpl; rewrite IH; reflexivity.
Qed.

Lemma firstn_1_incl {A} (l : list A) : incl (firstn 1 l) l.
Proof. destruct l as [|a l]; intros x; simpl; tauto. Qed.

(** A property of traces that holds of nothing, of a message written, of
    every turn of the loop, and of two traces put end to end, holds of what
    the handler adds. *)
Section Invariant.
Variable Phi : Trace RR -> Prop.
Variable qs : list msg.DnsQuestion.
Hypothesis Phi_nil : Phi [].
Hypothesis Phi_app : forall a b, Phi a -> Phi b -> Phi (a ++ b).
Hypothesis Phi_write : forall m, Phi [EvWrite m].
Hypothesis Phi_turn :
  forall u q tr, In u upstreams -> In q qs -> Phi (turn u q tr).

Lemma upstreamLoop_inv (m : msg.Msg RR) (q : msg.DnsQuestion)
  (ups : list string) (tr : Trace RR) :
  incl ups upstreams -> In q qs ->
  exists new o, upstreamLoop' m q ups tr = (o, tr ++ new) /\ Phi new.
Proof.
  intros Hi Hq. revert tr. induction ups as [|u ups IH]; intros tr.
  - exists [], None. simpl. unfold ret. rewrite app_nil_r. auto.
  - assert (Hu : In u upstreams) by (apply Hi; left; reflexivity).
    assert (Hi' : incl ups upstreams)
      by (intros x Hx; apply Hi; right; exact Hx).
    pose proof (Phi_turn u q tr Hu Hq) as Ht.
    destruct (DoHQuery_events RR NewRR json_Decode url_error http_Do timeout
                u (msg.Name q) (msg.Qtype q) tr) as [r Hrun].
    rewrite (events_of_ext _ _ _ _ _ Hrun), Hrun in Ht. simpl fst in Ht.
    simpl. unfold bind at 1. rewrite Hrun. destruct r as [rsp|err].
    + eexists. exists (Some (appendAnswers RR m rsp)). unfold ret.
      split; [reflexivity|]. rewrite app_nil_r in Ht. exact Ht.
    + unfold bind, emit.
      match goal with
      | |- context [upstreamLoop' m q ups ?t] =>
          destruct (IH Hi' t) as (new & o & Hloop & Hp)
      end.
      rewrite Hloop.
      match type of Ht with Phi ?x => exists (x ++ new), o end.
      split; [|apply Phi_app; assumption].
      rewrite <- !app_assoc. reflexivity.
Qed.

Lemma questionLoop_inv (m : msg.Msg RR) (qs' : list msg.DnsQuestion)
  (tr : Trace RR) :
  incl qs' qs ->
  exists new o, questionLoop' m qs' tr = (o, tr ++ new) /\ Phi new.
Proof.
  intros Hi. revert tr. induction qs' as [|q qs' IH]; intros tr.
  - exists [], None. simpl. unfold ret. rewrite app_nil_r. auto.
  - assert (Hq : In q qs) by (apply Hi; left; reflexivity).
    assert (Hi' : incl qs' qs) by (intros x Hx; apply Hi; right; exact Hx).
    destruct (upstreamLoop_inv m q upstreams tr (incl_refl _) Hq)
      as (new1 & o1 & Hrun1 & Hp1).
    simpl. unfold bind at 1. rewrite Hrun1. destruct o1 as [m'|].
    + exists new1, (Some m'). unfold ret. auto.
    + destruct (IH Hi' (tr ++ new1)) as (new2 & o2 & Hrun2 & Hp2).
      rewrite Hrun2. exists (new1 ++ new2), o2.
      rewrite app_assoc. auto.
Qed.

Lemma handler_inv (req : msg.Msg RR) (tr : Trace RR) :
  incl (msg.Question (newReply RR req)) qs ->
  Phi (events_of (handleDnsRequest' req) tr).
Proof.
  intros Hi.
  assert (H : exists new, handleDnsRequest' req tr = (tt, tr ++ new) /\ Phi new).
  { unfold handleDnsRequest.
    destruct (List.length (msg.Question req) =? 0)%nat.
    - eexists. split; [reflexivity|]. apply Phi_write.
    - cbv zeta. destruct (msg.Opcode req =? dns.OpcodeQuery).
      + unfold bind, parseQuery.
        destruct (questionLoop_inv (newReply RR req)
                    (msg.Question (newReply RR req)) tr Hi)
          as (new & o & Hrun & Hp).
        unfold bind. rewrite Hrun. destruct o as [m'|].
        * unfold ret, WriteMsg, emit. eexists.
          rewrite <- app_assoc. split; [reflexivity|].
          apply Phi_app; [exact Hp|apply Phi_write].
        * unfold HandleFailed, WriteMsg, emit, ret, bind. eexists.
          rewrite <- !app_assoc. split; [reflexivity|].
          apply Phi_app; [exact Hp|].
          apply (Phi_app [_] [_]); apply Phi_write.
      + unfold bind, ret, WriteMsg, emit. eexists.
        split; [reflexivity|]. apply Phi_write. }
  destruct H as (new & Hrun & Hp).
  rewrite (events_of_ext _ _ _ _ _ Hrun). exact Hp.
Qed.

End Invariant.

(** The events of a turn, spelled out. *)
Lemma turn_events (u : string) (q : msg.DnsQuestion) (tr : Trace RR) :
  exists r,
    fst (DoHQuery' u (msg.Name q) (msg.Qtype q) tr) = r /\
    turn u q tr
    = match typeToString (msg.Qtype q), url_error u with
      | Ok t, None =>
          let rq := mkRequest (requestContext timeout) "GET" u
                      [("Accept", "application/dns-json")]
                      [("name", msg.Name q); ("type", TrimSpace t)] in
          [EvHTTP rq (http_Do tr rq)]
      | _, _ => []
      end
      ++ [EvDoH u (msg.Name q) (msg.Qtype q) r]
      ++ match r with
         | Err err => [EvLog (u ++ " DOH Query Failed: " ++ err)%string]
         | Ok _ => []
         end.
Proof.
  destruct (DoHQuery_events RR NewRR json_Decode url_error http_Do timeout
              u (msg.Name q) (msg.Qtype q) tr) as [r Hrun].
  exists r. rewrite (events_of_ext _ _ _ _ _ Hrun), Hrun. simpl fst.
  split; [reflexivity|]. rewrite <- app_assoc. reflexivity.
Qed.

(** X16: the log of a handling has one line for each call of [DoHQuery]
    that failed, in the order of the calls, made of the upstream and the
    error; a call that succeeded leaves none, and nothing else is logged. *)
Theorem failures_are_logged (req : msg.Msg RR) (tr : Trace RR) :
  let new := events_of (handleDnsRequest' req) tr in
  logged new = flat_map failure_line (doh_calls new).
Proof.
  apply (handler_inv
           (fun new => logged new = flat_map failure_line (doh_calls new))
           (msg.Question (newReply RR req))).
  - reflexivity.
  - intros a b Ha Hb.
    rewrite logged_app, doh_calls_app, flat_map_app, Ha, Hb. reflexivity.
  - reflexivity.
  - intros u q tr0 _ _. destruct (turn_events u q tr0) as (r & _ & ->).
    destruct (typeToString (msg.Qtype q)); destruct (url_error u);
      destruct r; reflexivity.
  - apply incl_refl.
Qed.

(** X17: whatever the request, the handler sends HTTP requests to the
    configured upstreams only, each a GET with the Accept header of the
    JSON API and the deadline of the flag, asking for the name and the type
    of a question of the request; and it sends at most one for each call of
    [DoHQuery]. *)
Theorem requests_go_to_upstreams (req : msg.Msg RR) (tr : Trace RR) :
  let new := events_of (handleDnsRequest' req) tr in
  Forall (request_for timeout upstreams (msg.Question req))
    (http_requests new) /\
  (List.length (http_requests new) <= List.length (doh_calls new))%nat.
Proof.
  apply (handler_inv
           (fun new =>
              Forall (request_for timeout upstreams (msg.Question req))
                (http_requests new) /\
              (List.length (http_requests new)
               <= List.length (doh_calls new))%nat)
           (msg.Question req)).
  - split; [constructor|apply Nat.le_refl].
  - intros a b [Ha La] [Hb Lb].
    rewrite http_requests_app, doh_calls_app, !length_app. split.
    + apply Forall_app. split; assumption.
    + apply Nat.add_le_mono; assumption.
  - intros m. split; [constructor|apply Nat.le_refl].
  - intros u q tr0 Hu Hq. destruct (turn_events u q tr0) as (r & _ & ->).
    destruct (typeToString (msg.Qtype q)) as [t|e] eqn:Et.
    + destruct (url_error u) as [err|].
      * split; [destruct r; constructor|]. destruct r; simpl; auto.
      * cbv zeta. rewrite (TrimSpace_mnemonic _ _ Et). split.
        -- destruct r; simpl; (constructor; [|constructor]);
             (repeat split; auto; exists q, t; auto).
        -- destruct r; simpl; apply Nat.le_refl.
    + split; [destruct r; constructor|]. destruct r; simpl; auto.
  - rewrite newReply_Question. apply firstn_1_incl.
Qed.

Lemma calls_of_results (calls : list (Call RR)) (e : string) :
  Forall (fun c => snd c = Err e) calls ->
  calls = map (fun a => (a, Err e)) (map fst calls).
Proof.
  induction 1 as [|[a r] calls Hr _ IH]; simpl; [reflexivity|].
  simpl in Hr. rewrite Hr, <- IH. reflexivity.
Qed.

(** X18: a standard query whose first question has a type without
    mnemonic (SRV, say) never reaches the network: every upstream is tried
    and fails with the error that names the type, no HTTP request is sent,
    and the client gets the SERVFAIL, then the empty reply. *)
Theorem unsupported_question (req : msg.Msg RR) (tr : Trace RR)
  (q : msg.DnsQuestion) :
  msg.Opcode req = dns.OpcodeQuery ->
  hd_error (msg.Question req) = Some q ->
  ~ In (msg.Qtype q) supported ->
  let new := events_of (handleDnsRequest' req) tr in
  let e := ("Unsupported type " ++ fmt_d (msg.Qtype q))%string in
  http_requests new = [] /\
  doh_calls new
    = map (fun u => ((u, msg.Name q, msg.Qtype q), Err e)) upstreams /\
  written new = [failedReply RR req; newReply RR req].
Proof.
  intros Hop Hhd Hn new e.
  assert (Hqs : msg.Question (newReply RR req) = [q]).
  { rewrite newReply_Question.
    destruct (msg.Question req) as [|q0 qs]; [discriminate Hhd|].
    injection Hhd as ->. reflexivity. }
  assert (Hq : msg.Question req <> [])
    by (destruct (msg.Question req); [discriminate Hhd|discriminate]).
  assert (Hinv : http_requests new = [] /\
                 Forall (fun c => snd c = Err e) (doh_calls new)).
  { apply (handler_inv
             (fun new => http_requests new = [] /\
                         Forall (fun c => snd c = @Err (list RR) e)
                           (doh_calls new)) [q]).
    - split; [reflexivity|constructor].
    - intros a b [Ha Fa] [Hb Fb].
      rewrite http_requests_app, doh_calls_app, Ha, Hb.
      split; [reflexivity|]. apply Forall_app. split; assumption.
    - intros m. split; [reflexivity|constructor].
    - intros u q' tr0 _ [<-|[]].
      pose proof (DoHQuery_unsupported_run RR NewRR json_Decode url_error http_Do
                    timeout u (msg.Name q) (msg.Qtype q) tr0 Hn) as Hrun.
      rewrite (events_of_ext _ _ _ _ _ Hrun), Hrun. simpl.
      split; [reflexivity|]. repeat constructor.
    - rewrite Hqs. apply incl_refl. }
  destruct Hinv as [Hh Hf]. split; [exact Hh|].
  assert (HF : Forall failed (doh_calls new)).
  { revert Hf. apply Forall_impl. intros c Hc. unfold failed.
    rewrite Hc. reflexivity. }
  destruct (all_failed_writes RR NewRR json_Decode url_error http_Do timeout upstreams
              req tr Hop Hq HF) as [[_ Ha] Hw].
  split; [|exact Hw].
  rewrite (calls_of_results _ e Hf). fold new in Ha. rewrite Ha, Hqs.
  unfold attempts. simpl. rewrite app_nil_r, map_map. reflexivity.
Qed.

(** X19: nothing is written to the client before the lookups are over:
    what the handler adds to the trace is the calls, with their requests
    and log lines, and then the messages. *)
Theorem replies_come_last (req : msg.Msg RR) (tr : Trace RR) :
  let new := events_of (handleDnsRequest' req) tr in
  exists pre,
    new = pre ++ map EvWrite (written new) /\ written pre = [].
Proof.
  assert (H : exists pre ws,
             handleDnsRequest' req tr = (tt, tr ++ pre ++ map EvWrite ws) /\
             written pre = []).
  { unfold handleDnsRequest.
    destruct (List.length (msg.Question req) =? 0)%nat.
    - exists [], [failedReply RR req]. split; reflexivity.
    - cbv zeta. destruct (msg.Opcode req =? dns.OpcodeQuery).
      + unfold bind, parseQuery.
        destruct (questionLoop_spec RR NewRR json_Decode url_error http_Do timeout
                    upstreams (newReply RR req)
                    (msg.Question (newReply RR req)) tr)
          as (new & o & Hrun & Hw & _).
        unfold bind. rewrite Hrun. destruct o as [rs|]; simpl.
        * exists new, [appendAnswers RR (newReply RR req) rs].
          unfold ret, WriteMsg, emit. rewrite <- app_assoc. auto.
        * exists new, [failedReply RR req; newReply RR req].
          unfold HandleFailed, WriteMsg, emit, ret, bind.
          rewrite <- !app_assoc. auto.
      + exists [], [newReply RR req]. split; reflexivity. }
  destruct H as (pre & ws & Hrun & Hw).
  cbv zeta. rewrite (events_of_ext _ _ _ _ _ Hrun).
  exists pre. split; [|exact Hw].
  rewrite written_app, Hw. simpl. f_equal.
  clear. induction ws as [|w ws IH]; simpl; [reflexivity|].
  rewrite <- IH. reflexivity.
Qed.

End HandlerTrace.

(** ** These properties at work in the small world *)

Lemma DoHQuery_unsupported_type_witness :
  ~ In 33 supported /\
  demo.DoHQuery 10 demo.one "_sip._tcp.example.com." 33 []
  = (Err "Unsupported type 33",
     [EvDoH demo.one "_sip._tcp.example.com." 33 (Err "Unsupported type 33")]).
Proof.
  assert (H : ~ In 33 supported)
    by (simpl; intros H; repeat (destruct H as [H|H]; [discriminate H|]);
        exact H).
  split; [exact H|].
  exact (proj1 (DoHQuery_unsupported_type demo.RR demo.NewRR demo.json_Decode demo.url_error
                  demo.http_Do 10 demo.one "_sip._tcp.example.com." 33 [] H)).
Defined.

Lemma DoHQuery_first_bad_answer_witness :
  typeToString dns.TypeA = Ok "A" /\
  demo.json_Decode "odd"
  = Ok (demo.envelope 0
          ([demo.example_com] ++ mkAnswer "example.com." 46 300 "sig" :: [])) /\
  Forall2 (parsed_from demo.NewRR) [demo.example_com]
    ["example.com. 300 IN A 93.184.216.34"%string] /\
  fst (DoHQuery demo.RR demo.NewRR demo.json_Decode demo.url_error (fun _ _ => Ok "odd") 10
         demo.one "example.com." dns.TypeA [])
  = Err "Unsupported type 46".
Proof.
  assert (H : Forall2 (parsed_from demo.NewRR) [demo.example_com]
                ["example.com. 300 IN A 93.184.216.34"%string]).
  { constructor; [|constructor]. exists "A"%string. split; reflexivity. }
  split; [reflexivity|]. split; [reflexivity|]. split; [exact H|].
  exact (DoHQuery_first_bad_answer demo.RR demo.NewRR demo.json_Decode
           demo.url_error (fun _ _ => Ok "odd"%string) 10 demo.one "example.com."%string
           dns.TypeA "A"%string [] "odd"%string
           (demo.envelope 0
              ([demo.example_com] ++ mkAnswer "example.com." 46 300 "sig" :: []))
           [demo.example_com] [] (mkAnswer "example.com." 46 300 "sig")
           ["example.com. 300 IN A 93.184.216.34"%string]
           eq_refl eq_refl eq_refl eq_refl eq_refl H).
Defined.

Lemma DoHQuery_sends_witness :
  typeToString dns.TypeAAAA = Ok "AAAA" /\
  demo.url_error demo.one = None /\
  http_requests (events_of (demo.DoHQuery 10 demo.one "example.com."
                              dns.TypeAAAA) [])
  = [mkRequest (requestContext 10) "GET" demo.one
       [("Accept", "application/dns-json")]
       [("name", "example.com."); ("type", "AAAA")]] /\
  demo.url_error "://bad" = Some "missing protocol scheme"%string /\
  http_requests (events_of (demo.DoHQuery 10 "://bad" "example.com."
                              dns.TypeAAAA) []) = [] /\
  fst (demo.DoHQuery 10 "://bad" "example.com." dns.TypeAAAA [])
  = Err "missing protocol scheme".
Proof.
  split; [reflexivity|]. split; [reflexivity|]. split.
  - exact (proj1 (DoHQuery_sends demo.RR demo.NewRR demo.json_Decode
                    demo.url_error demo.http_Do 10 demo.one
                    "example.com."%string dns.TypeAAAA "AAAA"%string []
                    eq_refl) eq_refl).
  - split; [reflexivity|].
    exact (proj2 (DoHQuery_sends demo.RR demo.NewRR demo.json_Decode
                    demo.url_error demo.http_Do 10 "://bad"%string
                    "example.com."%string dns.TypeAAAA "AAAA"%string []
                    eq_refl) "missing protocol scheme"%string eq_refl).
Defined.

Lemma DoHQuery_as_many_records_witness :
  typeToString dns.TypeA = Ok "A" /\
  demo.json_Decode "two" = Ok demo.with_cname /\
  fst (demo.DoHQuery 10 demo.two "example.com." dns.TypeA [])
  = Ok ["example.com. 60 IN CNAME www.example.com."%string;
        "www.example.com. 300 IN A 93.184.216.34"%string] /\
  Status demo.with_cname = 0 /\
  (2 = List.length (r_Answer demo.with_cname))%nat.
Proof.
  split; [reflexivity|]. split; [reflexivity|]. split; [reflexivity|].
  exact (DoHQuery_as_many_records demo.RR demo.NewRR demo.json_Decode demo.url_error
           demo.http_Do 10 demo.two "example.com."%string dns.TypeA
           "A"%string [] "two"%string demo.with_cname
           ["example.com. 60 IN CNAME www.example.com."%string;
            "www.example.com. 300 IN A 93.184.216.34"%string]
           eq_refl eq_refl eq_refl eq_refl).
Defined.

Lemma DoHQuery_status_in_error_witness :
  typeToString dns.TypeA = Ok "A" /\
  demo.json_Decode "servfail" = Ok (demo.envelope 2 [demo.example_com]) /\
  Status (demo.envelope 2 [demo.example_com]) <> 0 /\
  fst (demo.DoHQuery 10 demo.servfail "example.com." dns.TypeA [])
  = Err ("DOH failed response code " ++ fmt_d 2) /\
  2 = Status (demo.envelope 2 [demo.example_com]).
Proof.
  assert (Hs : Status (demo.envelope 2 [demo.example_com]) <> 0)
    by discriminate.
  split; [reflexivity|]. split; [reflexivity|]. split; [exact Hs|].
  split; [reflexivity|].
  exact (DoHQuery_status_in_error demo.RR demo.NewRR demo.json_Decode demo.url_error
           demo.http_Do 10 demo.servfail "example.com."%string dns.TypeA
           "A"%string [] "servfail"%string
           (demo.envelope 2 [demo.example_com]) 2
           eq_refl eq_refl eq_refl Hs eq_refl).
Defined.

Lemma handler_first_question_only_witness :
  In ((demo.one, "example.com."%string, 1),
      Ok ["example.com. 300 IN A 93.184.216.34"%string])
     (doh_calls (events_of (demo.handleDnsRequest 10 [demo.down; demo.one]
                              demo.query) [])) /\
  msg.Opcode demo.query = dns.OpcodeQuery /\
  exists q u,
    hd_error (msg.Question demo.query) = Some q /\
    In u [demo.down; demo.one] /\
    (demo.one, "example.com."%string, 1) = (u, msg.Name q, msg.Qtype q).
Proof.
  assert (H : In ((demo.one, "example.com."%string, 1),
                  Ok ["example.com. 300 IN A 93.184.216.34"%string])
     (doh_calls (events_of (demo.handleDnsRequest 10 [demo.down; demo.one]
                              demo.query) [])))
    by (vm_compute; right; left; reflexivity).
  split; [exact H|].
  exact (proj2 (handler_first_question_only demo.RR demo.NewRR
                  demo.json_Decode demo.url_error demo.http_Do 10 [demo.down; demo.one]
                  demo.query []) _ H).
Defined.

Lemma success_reply_witness :
  msg.Opcode demo.query = dns.OpcodeQuery /\
  hd_error (msg.Question demo.query) = Some (demo.question "example.com." 1) /\
  In ((demo.one, "example.com."%string, 1),
      Ok ["example.com. 300 IN A 93.184.216.34"%string])
     (doh_calls (events_of (demo.handleDnsRequest 10 [demo.down; demo.one]
                              demo.query) [])) /\
  exists m,
    written (events_of (demo.handleDnsRequest 10 [demo.down; demo.one]
                          demo.query) []) = [m] /\
    m = msg.set_Answer (newReply demo.RR demo.query)
          ["example.com. 300 IN A 93.184.216.34"%string] /\
    msg.Id m = msg.Id demo.query /\ msg.Response m = true /\
    msg.Rcode m = dns.RcodeSuccess /\ msg.Compress m = false /\
    msg.Question m = [demo.question "example.com." 1] /\
    msg.Answer m = ["example.com. 300 IN A 93.184.216.34"%string].
Proof.
  assert (H : In ((demo.one, "example.com."%string, 1),
                  Ok ["example.com. 300 IN A 93.184.216.34"%string])
     (doh_calls (events_of (demo.handleDnsRequest 10 [demo.down; demo.one]
                              demo.query) [])))
    by (vm_compute; right; left; reflexivity).
  split; [reflexivity|]. split; [reflexivity|]. split; [exact H|].
  exact (success_reply demo.RR demo.NewRR demo.json_Decode demo.url_error demo.http_Do 10
           [demo.down; demo.one] demo.query []
           (demo.question "example.com." 1) _ _ eq_refl eq_refl H).
Defined.

Lemma unsupported_question_witness :
  msg.Opcode (demo.request 11 dns.OpcodeQuery
                [demo.question "_sip._tcp.example.com." 33])
  = dns.OpcodeQuery /\
  ~ In 33 supported /\
  http_requests
    (events_of (demo.handleDnsRequest 10 [demo.one; demo.two]
                  (demo.request 11 dns.OpcodeQuery
                     [demo.question "_sip._tcp.example.com." 33])) [])
  = [] /\
  doh_calls
    (events_of (demo.handleDnsRequest 10 [demo.one; demo.two]
                  (demo.request 11 dns.OpcodeQuery
                     [demo.question "_sip._tcp.example.com." 33])) [])
  = [((demo.one, "_sip._tcp.example.com."%string, 33),
      Err "Unsupported type 33");
     ((demo.two, "_sip._tcp.example.com."%string, 33),
      Err "Unsupported type 33")].
Proof.
  assert (H : ~ In 33 supported)
    by (simpl; intros H; repeat (destruct H as [H|H]; [discriminate H|]);
        exact H).
  split; [reflexivity|]. split; [exact H|].
  pose proof (unsupported_question demo.RR demo.NewRR demo.json_Decode demo.url_error
                demo.http_Do 10 [demo.one; demo.two]
                (demo.request 11 dns.OpcodeQuery
                   [demo.question "_sip._tcp.example.com." 33]) []
                (demo.question "_sip._tcp.example.com." 33)
                eq_refl eq_refl H) as (Hh & Hc & _).
  split; [exact Hh|exact Hc].
Defined.
